(** * vercel-inception: the web-search agent of [main.py]

    A shallow embedding of [main.py]: the search adapter
    [web_search_execute], the [web_search] tool declaration, the unused
    [InceptionModel] wrapper, the startup credential check and the
    read-eval-print loop of [main].

    Modelling conventions.
    - A Python [str] is a [string]; a character is a code point below 256
      (Latin-1), on which [str.strip] and [str.lower] are written out.
    - A Python [dict] with string keys is a [gmap string _]; the JSON-like
      literal of the tool schema keeps its member order in an association
      list.
    - A call that may raise returns a [py_result]; [try]/[except] clauses
      select on the class of the exception exactly as the source writes them.
    - The outside world (standard input, the model client, the clock, the
      search engine) is an oracle: each turn of the loop is given the outcome
      of the calls it may make.  The program's effects are recorded as a
      trace of events. *)

From Stdlib Require Import ZArith String Ascii List Bool Lia.
From Stdlib Require Import Floats.PrimFloat Floats.FloatOps Floats.SpecFloat.
From stdpp Require Import base option list gmap strings pretty.

Local Open Scope Z_scope.
#[local] Set Warnings "-inexact-float".

(* ===================================================================== *)
(** ** Python strings *)
(* ===================================================================== *)

(** The line feed of ["\n"]. *)
Definition LF : string := String "010"%char EmptyString.

(** [str.isspace] on a single character, for code points below 256:
    TAB..CR, FS..US, SPACE, NEL and NBSP. *)
Definition isspace (c : ascii) : bool :=
  let n := N_of_ascii c in
  ((9 <=? n) && (n <=? 13) || (28 <=? n) && (n <=? 32)
   || (n =? 133) || (n =? 160))%N.

(** [str.lstrip()], [str.rstrip()] and [str.strip()] with no argument. *)
Fixpoint lstrip (s : string) : string :=
  match s with
  | EmptyString => EmptyString
  | String c s' => if isspace c then lstrip s' else s
  end.

Fixpoint rstrip (s : string) : string :=
  match s with
  | EmptyString => EmptyString
  | String c s' =>
      match rstrip s' with
      | EmptyString => if isspace c then EmptyString else String c EmptyString
      | r => String c r
      end
  end.

Definition strip (s : string) : string := rstrip (lstrip s).

(** [str.lower()]: A..Z and the Latin-1 capitals (all of 0xC0..0xDE but the
    multiplication sign 0xD7) move up by 32; every other code point below 256
    is its own lower case. *)
Definition lower_char (c : ascii) : ascii :=
  let n := N_of_ascii c in
  if ((65 <=? n) && (n <=? 90)
      || (192 <=? n) && (n <=? 222) && negb (n =? 215))%N
  then ascii_of_N (n + 32) else c.

Fixpoint lower (s : string) : string :=
  match s with
  | EmptyString => EmptyString
  | String c s' => String (lower_char c) (lower s')
  end.

(** [x in l] for a list of strings. *)
Definition str_in (x : string) (l : list string) : bool :=
  existsb (String.eqb x) l.

(** [sep.join(l)]. *)
Definition join (sep : string) (l : list string) : string :=
  String.concat sep l.

(** [str(i)] for a non-negative integer. *)
Definition str_of_nat (i : nat) : string := pretty i.

(** [s.split("\n")]-style decomposition, used to count the lines of a
    rendered entry. *)
Fixpoint lines (s : string) : list string :=
  match s with
  | EmptyString => [EmptyString]
  | String c s' =>
      if Ascii.eqb c "010"%char then EmptyString :: lines s'
      else match lines s' with
           | [] => [String c EmptyString]
           | l :: ls => String c l :: ls
           end
  end.

(** Whether a line feed occurs in [s]. *)
Fixpoint has_LF (s : string) : bool :=
  match s with
  | EmptyString => false
  | String c s' => Ascii.eqb c "010"%char || has_LF s'
  end.

(** [c.isdigit()] for the ASCII digits, and strings made of them. *)
Definition is_digit (c : ascii) : bool :=
  let n := N_of_ascii c in ((48 <=? n) && (n <=? 57))%N.

Fixpoint all_digits (s : string) : bool :=
  match s with
  | EmptyString => true
  | String c s' => is_digit c && all_digits s'
  end.

(** Strings made of white space only ([""] included). *)
Fixpoint all_space (s : string) : bool :=
  match s with
  | EmptyString => true
  | String c s' => isspace c && all_space s'
  end.

(* ===================================================================== *)
(** ** Python exceptions *)
(* ===================================================================== *)

(** The argument of [SystemExit]: none (or [None]), an integer, or any
    other object. *)
Inductive exit_arg : Type :=
| ExitNone
| ExitInt (n : Z)
| ExitObject.

(** The part of the exception hierarchy the [except] clauses of [main.py]
    distinguish: [KeyboardInterrupt], [SystemExit] and [GeneratorExit] derive
    from [BaseException] only; every other class derives from [Exception]. *)
Inductive exn_class : Type :=
| KeyboardInterrupt
| SystemExit (code : exit_arg)
| GeneratorExit
| ExceptionClass (name : string).

(** An exception object: its class and [str(e)]. *)
Record py_exn : Type := PyExn { exn_class_of : exn_class; exn_str : string }.

Definition isinstance_Exception (e : py_exn) : bool :=
  match exn_class_of e with
  | ExceptionClass _ => true
  | _ => false
  end.

Definition isinstance_KeyboardInterrupt (e : py_exn) : bool :=
  match exn_class_of e with
  | KeyboardInterrupt => true
  | _ => false
  end.

(** The outcome of a call: a value, or a raised exception. *)
Inductive py_result (A : Type) : Type :=
| Ret (a : A)
| Raise (e : py_exn).
Arguments Ret {A} a.
Arguments Raise {A} e.

(** [try: body except Exception as e: handler(e)]. *)
Definition try_except_Exception {A} (body : py_result A)
    (handler : py_exn -> py_result A) : py_result A :=
  match body with
  | Ret a => Ret a
  | Raise e => if isinstance_Exception e then handler e else Raise e
  end.

Definition bind_result {A B} (m : py_result A) (k : A -> py_result B)
  : py_result B :=
  match m with
  | Ret a => k a
  | Raise e => Raise e
  end.

(* ===================================================================== *)
(** ** The search adapter *)
(* ===================================================================== *)

(** [dict.get(key, default)] on a dictionary of strings. *)
Definition dict_get (d : gmap string string) (key default : string) : string :=
  match d !! key with
  | Some v => v
  | None => default
  end.

(** The f-string of one entry: [f"{i}. {title}\n   {snippet}\n   URL: {url}"]. *)
Definition format_entry (i : nat) (title snippet url : string) : string :=
  str_of_nat i +:+ ". " +:+ title +:+ LF +:+ "   " +:+ snippet
    +:+ LF +:+ "   URL: " +:+ url.

(** The [for i, result in enumerate(results, 1)] loop: [i] is the running
    index, [formatted_results] the list appended to. *)
Fixpoint format_loop (i : nat) (results : list (gmap string string))
    (formatted_results : list string) : list string :=
  match results with
  | [] => formatted_results
  | result :: rest =>
      let title := dict_get result "title" "No title" in
      let snippet := dict_get result "body" "No description" in
      let url := dict_get result "href" "No URL" in
      format_loop (S i) rest
        (formatted_results ++ [format_entry i title snippet url])
  end.

Section SearchAdapter.

(** The search engine: [list(DDGS().text(query, max_results=max_results))]
    inside its [with] block either yields the result records or raises. *)
Variable ddgs_text : string -> Z -> py_result (list (gmap string string)).

(** [web_search_execute(query, max_results)]; a caller that omits
    [max_results] passes 5. *)
Definition web_search_execute (query : string) (max_results : Z)
  : py_result string :=
  try_except_Exception
    (bind_result (ddgs_text query max_results) (fun results =>
       match results with
       | [] => Ret "No search results found."
       | _ => Ret (join (LF +:+ LF) (format_loop 1 results []))
       end))
    (fun e => Ret ("Error performing web search: " +:+ exn_str e)).

End SearchAdapter.

(* ===================================================================== *)
(** ** Floating-point seconds and the [.2f] format *)
(* ===================================================================== *)

(** [num / den] rounded to the nearest integer, ties to even
    ([num >= 0], [den > 0]). *)
Definition round_half_even (num den : Z) : Z :=
  let q := num / den in
  let r := num mod den in
  match 2 * r ?= den with
  | Lt => q
  | Gt => q + 1
  | Eq => if Z.even q then q else q + 1
  end.

(** The number of hundredths nearest to [m * 2^e]. *)
Definition hundredths (m : positive) (e : Z) : Z :=
  if 0 <=? e then 100 * Z.pos m * 2 ^ e
  else round_half_even (100 * Z.pos m) (2 ^ (- e)).

(** The decimal digit [n], [0 <= n < 10]. *)
Definition digit (n : Z) : string :=
  String (ascii_of_N (48 + Z.to_N n)) EmptyString.

(** [h] hundredths written with two decimals. *)
Definition fixed2 (h : Z) : string :=
  pretty (Z.to_N (h / 100)) +:+ "." +:+ digit (h mod 100 / 10)
    +:+ digit (h mod 10).

(** [format(x, ".2f")] on a binary64 value: the exact value is rounded to
    the nearest hundredth, ties to even; a set sign bit prints ["-"], also
    on zero; [nan] prints without a sign. *)
Definition format_2f (x : float) : string :=
  match Prim2SF x with
  | S754_nan => "nan"
  | S754_infinity s => if s then "-inf" else "inf"
  | S754_zero s => (if s then "-" else "") +:+ "0.00"
  | S754_finite s m e => (if s then "-" else "") +:+ fixed2 (hundredths m e)
  end.

Definition is_finite (x : float) : bool :=
  match Prim2SF x with
  | S754_zero _ | S754_finite _ _ _ => true
  | _ => false
  end.

(* ===================================================================== *)
(** ** The tool declaration *)
(* ===================================================================== *)

(** The dictionary, list, string and integer literals of the schema. A
    dictionary literal keeps its members in the order written. *)
#[local] Set Warnings "-register-all".
Inductive json : Type :=
| JString (s : string)
| JInteger (n : Z)
| JArray (items : list json)
| JObject (members : list (string * json)).

(** What [tool(name=..., description=..., parameters=..., execute=...)]
    builds. *)
Record Tool : Type := tool {
  tool_name : string;
  tool_description : string;
  tool_parameters : json;
  tool_execute : string -> Z -> py_result string
}.

(** The [parameters=] argument of the [web_search] declaration. *)
Definition web_search_parameters : json :=
  JObject
    [ ("type", JString "object");
      ("properties",
       JObject
         [ ("query",
            JObject
              [ ("type", JString "string");
                ("description",
                 JString "The search query to look up on the web") ]);
           ("max_results",
            JObject
              [ ("type", JString "integer");
                ("description",
                 JString "Maximum number of results to return");
                ("default", JInteger 5) ]) ]);
      ("required", JArray [JString "query"]) ].

(** The schema as the specification prints it:
    {"type":"object","properties":{"query":{"type":"string"},
    "max_results":{"type":"integer","default":5}},"required":["query"]}. *)
Definition spec_schema : json :=
  JObject
    [ ("type", JString "object");
      ("properties",
       JObject
         [ ("query", JObject [ ("type", JString "string") ]);
           ("max_results",
            JObject [ ("type", JString "integer"); ("default", JInteger 5) ]) ]);
      ("required", JArray [JString "query"]) ].

(** Dictionary surgery used to compare the two schemas. *)
Definition del_member (key : string) (j : json) : json :=
  match j with
  | JObject members =>
      JObject (filter (fun kv => negb (String.eqb (fst kv) key)) members)
  | _ => j
  end.

Definition map_members (f : json -> json) (j : json) : json :=
  match j with
  | JObject members => JObject (map (fun kv => (fst kv, f (snd kv))) members)
  | _ => j
  end.

Definition at_member (key : string) (f : json -> json) (j : json) : json :=
  match j with
  | JObject members =>
      JObject (map (fun kv =>
                      if String.eqb (fst kv) key then (fst kv, f (snd kv))
                      else kv) members)
  | _ => j
  end.

Definition get_member (key : string) (j : json) : option json :=
  match j with
  | JObject members =>
      snd <$> find (fun kv => String.eqb (fst kv) key) members
  | _ => None
  end.

(** The member reached by a path of keys. *)
Definition get_path (path : list string) (j : json) : option json :=
  foldl (fun found key => found ≫= get_member key) (Some j) path.

(** The schema without the [description] annotations of its properties. *)
Definition without_descriptions (schema : json) : json :=
  at_member "properties" (map_members (del_member "description")) schema.

(* ===================================================================== *)
(** ** Effects: traces and the outside world *)
(* ===================================================================== *)

(** The result object of [generate_text]; the loop reads [result.text]. *)
Record GenerateTextResult : Type := { text : string }.

(** What the outside world does during one pass of the loop body: the
    outcome of [input(...)], the two readings of [time.time()] and the
    outcome of [generate_text(...)].  A pass that leaves early ignores the
    rest. *)
Record turn : Type := Turn {
  turn_input : py_result string;
  turn_start : float;
  turn_generate : py_result GenerateTextResult;
  turn_end : float
}.

(** How a loop body is left. *)
Inductive ctl : Type :=
| Next   (* the end of the body, or [continue] *)
| Break. (* [break] *)

(** How a run ends: the function returned, an exception left it, or the
    scripted turns ran out while it waited in [input]. *)
Inductive run_end : Type :=
| Returned
| Uncaught (e : py_exn)
| AwaitingInput.

Section Program.

(** The handle of a language model, and the provider factory [openai] of the
    SDK, which reads the process environment when it is called and either
    returns a handle or raises (as it does without a usable
    OPENAI_API_KEY). *)
Variable Model : Type.
Variable openai : gmap string string -> string -> py_result Model.

(** [load_dotenv()]: the process environment after the [.env] file, if any,
    has been merged into it. *)
Variable load_dotenv : gmap string string -> gmap string string.

Variable ddgs_text : string -> Z -> py_result (list (gmap string string)).

(** Observable events, in program order. *)
Inductive event : Type :=
| EPrint (s : string)                      (* [print(s)] *)
| EInput (prompt : string)                 (* [input(prompt)] *)
| ETime                                    (* [time.time()] *)
| ESetEnv (key value : string)             (* [os.environ[key] = value] *)
| EOpenai (model_id : string)              (* [openai(model_id)] *)
| EGenerateText (model : Model) (prompt : string) (tools : list Tool)
    (max_tokens : Z)                       (* [generate_text(...)] *)
| EInceptionModelInit (api_key model_id : string)
                                           (* [InceptionModel(...)] *)
| EInceptionModelCall (model_name : option string)
                                           (* [InceptionModel.__call__] *)
| EOpenAIClient (api_key base_url : string).
                                           (* [openai_client.OpenAI(...)] *)

(** What a trace writes to standard output: [print] adds a line feed,
    [input] writes its prompt. *)
Definition stdout_of (ev : event) : string :=
  match ev with
  | EPrint s => s +:+ LF
  | EInput prompt => prompt
  | _ => ""
  end.

Definition stdout (trace : list event) : string :=
  String.concat "" (map stdout_of trace).

(** A computation: the events it emitted and its outcome. *)
Definition M (A : Type) : Type := list event * py_result A.

Definition ret {A} (a : A) : M A := ([], Ret a).

Definition bind {A B} (m : M A) (k : A -> M B) : M B :=
  match m with
  | (tr, Ret a) => let '(tr', r) := k a in (tr ++ tr', r)
  | (tr, Raise e) => (tr, Raise e)
  end.

#[local] Instance M_ret : MRet M := @ret.
#[local] Instance M_bind : MBind M := fun A B k m => bind m k.

Definition emit (ev : event) : M unit := ([ev], Ret tt).

Definition after {A} (tr : list event) (m : M A) : M A :=
  (tr ++ fst m, snd m).

(** The calls of the loop body, each with the outcome the turn gives it. *)
Definition print (s : string) : M unit := emit (EPrint s).

Definition input (prompt : string) (t : turn) : M string :=
  ([EInput prompt], turn_input t).

Definition time_time (now : float) : M float := ([ETime], Ret now).

Definition generate_text (model : Model) (prompt : string)
    (tools : list Tool) (max_tokens : Z) (t : turn) : M GenerateTextResult :=
  ([EGenerateText model prompt tools max_tokens], turn_generate t).

(** [try: body / except KeyboardInterrupt: h1 / except Exception as e: h2(e)]:
    the first clause whose class matches handles the exception; an exception
    of neither class leaves the statement. *)
Definition try_except {A} (body : M A) (on_KeyboardInterrupt : M A)
    (on_Exception : py_exn -> M A) : M A :=
  match body with
  | (tr, Ret a) => (tr, Ret a)
  | (tr, Raise e) =>
      if isinstance_KeyboardInterrupt e then after tr on_KeyboardInterrupt
      else if isinstance_Exception e then after tr (on_Exception e)
      else (tr, Raise e)
  end.

(** The tool, [web_search = tool(...)]. *)
Definition web_search : Tool :=
  tool "web_search"
    "Search the web for current information using DuckDuckGo. Use this when you need up-to-date information or facts that you don't already know."
    web_search_parameters
    (web_search_execute ddgs_text).

(** The wrapper class [InceptionModel]. *)
Record InceptionModel : Type := {
  self_api_key : string;
  self_model_id : string;
  self_base_url : string
}.

(** [InceptionModel.__init__(self, api_key, model_id)]; a caller that omits
    [model_id] passes ["mercury"]. *)
Definition InceptionModel_init (api_key model_id : string) : M InceptionModel :=
  emit (EInceptionModelInit api_key model_id) ;;
  ret {| self_api_key := api_key;
         self_model_id := model_id;
         self_base_url := "https://api.inceptionlabs.ai/v1" |}.

(** [model_name or self.model_id]: [None] and the empty string are false. *)
Definition or_model_id (model_name : option string) (model_id : string)
  : string :=
  match model_name with
  | None | Some EmptyString => model_id
  | Some n => n
  end.

(** [InceptionModel.__call__(self, model_name=None)]: the client is made
    and dropped; the outcome is that of [ai_openai(...)]. *)
Definition InceptionModel_call (environ : gmap string string)
    (self : InceptionModel) (model_name : option string) : M Model :=
  emit (EInceptionModelCall model_name) ;;
  emit (EOpenAIClient (self_api_key self) (self_base_url self)) ;;
  emit (EOpenai (or_model_id model_name (self_model_id self))) ;;
  ([], openai environ (or_model_id model_name (self_model_id self))).

(** The test [question.lower() in ['exit', 'quit', '']]. *)
Definition is_exit (question : string) : bool :=
  str_in (lower question) ["exit"; "quit"; ""].

(** One pass through the body of [while True]. *)
Definition loop_body (model : Model) (t : turn) : M ctl :=
  try_except
    (line ← input "Your question: " t;
     let question := strip line in
     if is_exit question then
       print "Goodbye!" ;;
       ret Break
     else
       start_time ← time_time (turn_start t);
       result ← generate_text model question [web_search] 1000 t;
       now ← time_time (turn_end t);
       let elapsed_time := PrimFloat.sub now start_time in
       print (LF +:+ "Answer: " +:+ text result) ;;
       print ("(Response time: " +:+ format_2f elapsed_time +:+ "s)" +:+ LF) ;;
       ret Next)
    (print (LF +:+ LF +:+ "Goodbye!") ;;
     ret Break)
    (fun e =>
       print (LF +:+ "Error: " +:+ exn_str e +:+ LF) ;;
       ret Next).

(** [while True: body], driven by the scripted turns.  When the script is
    exhausted the loop has written its prompt and waits for a line. *)
Fixpoint while_True (model : Model) (script : list turn)
  : list event * run_end :=
  match script with
  | [] => ([EInput "Your question: "], AwaitingInput)
  | t :: rest =>
      match loop_body model t with
      | (tr, Ret Next) =>
          let '(tr', r) := while_True model rest in (tr ++ tr', r)
      | (tr, Ret Break) => (tr, Returned)
      | (tr, Raise e) => (tr, Uncaught e)
      end
  end.

(** The environment after the two assignments at the head of [main]. *)
Definition main_environ (environ : gmap string string) (api_key : string)
  : gmap string string :=
  <["OPENAI_BASE_URL" := "https://api.inceptionlabs.ai/v1"]>
    (<["OPENAI_API_KEY" := api_key]> environ).

(** The events of [main] up to its call of [openai]. *)
Definition main_setup (api_key : string) : list event :=
  [ ESetEnv "OPENAI_API_KEY" api_key;
    ESetEnv "OPENAI_BASE_URL" "https://api.inceptionlabs.ai/v1";
    EOpenai "mercury" ].

(** The events of [main] before its loop, once [openai] has returned. *)
Definition main_prologue (api_key : string) : list event :=
  [ ESetEnv "OPENAI_API_KEY" api_key;
    ESetEnv "OPENAI_BASE_URL" "https://api.inceptionlabs.ai/v1";
    EOpenai "mercury";
    EPrint ("Welcome! Ask me questions (type 'exit' or 'quit' to stop)." +:+ LF);
    EPrint ("I can search the web for current information to answer your questions." +:+ LF) ].

(** [main()].  The call [openai("mercury")] stands outside the [try]
    statement: an exception it raises leaves [main] before anything is
    printed. *)
Definition main (environ : gmap string string) (api_key : string)
    (script : list turn) : list event * run_end :=
  let environ := main_environ environ api_key in
  match openai environ "mercury" with
  | Raise e => (main_setup api_key, Uncaught e)
  | Ret model =>
      let '(tr, r) := while_True model script in
      (main_prologue api_key ++ tr, r)
  end.

(** [os.getenv(key)]. *)
Definition os_getenv (environ : gmap string string) (key : string)
  : option string := environ !! key.

(** The module, run as a script: [load_dotenv()], the credential check, the
    definitions, then [main()]. *)
Definition program (environ : gmap string string) (script : list turn)
  : list event * run_end :=
  let environ := load_dotenv environ in
  match os_getenv environ "INCEPTION_API_KEY" with
  | None =>
      ([], Uncaught (PyExn (ExceptionClass "Exception")
                       "INCEPTION_API_KEY not found in environment variables"))
  | Some api_key => main environ api_key script
  end.

(** The exit status of the interpreter.  It is 0 when the script ran to
    its end.  After an uncaught exception it is 1, with a traceback, but for
    [SystemExit], which gives 0 for no argument, the argument itself for an
    integer from 0 to 255, and 1 for any other object.  No status is given
    while the program waits for input, after an uncaught
    [KeyboardInterrupt] (the interpreter ends by the interrupt signal) and
    for an integer argument outside 0..255 (platforms disagree on it). *)
Definition exit_status (r : run_end) : option Z :=
  match r with
  | Returned => Some 0
  | Uncaught e =>
      match exn_class_of e with
      | ExceptionClass _ | GeneratorExit => Some 1
      | SystemExit ExitNone => Some 0
      | SystemExit (ExitInt n) =>
          if (0 <=? n) && (n <=? 255) then Some n else None
      | SystemExit ExitObject => Some 1
      | KeyboardInterrupt => None
      end
  | AwaitingInput => None
  end.

(* ===================================================================== *)
(** ** Vocabulary of the statements *)
(* ===================================================================== *)

(** The events that enter the model client, and those of the
    [InceptionModel] wrapper. *)
Definition is_generate_text (ev : event) : bool :=
  match ev with
  | EGenerateText _ _ _ _ => true
  | _ => false
  end.

Definition is_openai (ev : event) : bool :=
  match ev with
  | EOpenai _ => true
  | _ => false
  end.

Definition is_InceptionModel (ev : event) : bool :=
  match ev with
  | EInceptionModelInit _ _ | EInceptionModelCall _ | EOpenAIClient _ _ => true
  | _ => false
  end.

(** The model handle of an event, when it is a call of the model client. *)
Definition model_of (ev : event) : option Model :=
  match ev with
  | EGenerateText m _ _ _ => Some m
  | _ => None
  end.

(** The body was left by the interrupt of [KeyboardInterrupt]. *)
Definition interrupted {A} (r : py_result A) : bool :=
  match r with
  | Raise e => isinstance_KeyboardInterrupt e
  | Ret _ => false
  end.

(** The turns that end the loop: an exit word or nothing once trimmed, or an
    interrupt while reading or while answering. *)
Definition ends_loop (t : turn) : bool :=
  match turn_input t with
  | Ret line => is_exit (strip line) || interrupted (turn_generate t)
  | Raise e => isinstance_KeyboardInterrupt e
  end.

(** The two farewell lines of the loop. *)
Definition is_farewell (ev : event) : Prop :=
  ev = EPrint "Goodbye!" \/ ev = EPrint (LF +:+ LF +:+ "Goodbye!").

(** The events of a pass up to and including the call of the model
    client. *)
Definition processing_trace (model : Model) (question : string)
  : list event :=
  [ EInput "Your question: "; ETime;
    EGenerateText model question [web_search] 1000 ].

(** The two lines printed after a successful answer. *)
Definition answer_trace (result : GenerateTextResult) (elapsed_time : float)
  : list event :=
  [ ETime;
    EPrint (LF +:+ "Answer: " +:+ text result);
    EPrint ("(Response time: " +:+ format_2f elapsed_time +:+ "s)" +:+ LF) ].

(** What a handler of the [try] statement does with an exception raised
    after the events [tr]. *)
Definition handled (tr : list event) (e : py_exn) : M ctl :=
  if isinstance_KeyboardInterrupt e then
    (tr ++ [EPrint (LF +:+ LF +:+ "Goodbye!")], Ret Break)
  else if isinstance_Exception e then
    (tr ++ [EPrint (LF +:+ "Error: " +:+ exn_str e +:+ LF)], Ret Next)
  else (tr, Raise e).

(** What the events of the loop never are, and the model they carry. *)
Definition loop_event (model : Model) (ev : event) : Prop :=
  is_InceptionModel ev = false
  /\ is_openai ev = false
  /\ (forall m, model_of ev = Some m -> m = model).

(** The outcome of the call of [openai] in [main], once the credential
    [api_key] was found. *)
Definition main_model (environ : gmap string string) (api_key : string)
  : py_result Model :=
  openai (main_environ (load_dotenv environ) api_key) "mercury".

End Program.

Arguments EPrint {Model} s.
Arguments EInput {Model} prompt.
Arguments ETime {Model}.
Arguments ESetEnv {Model} key value.
Arguments EOpenai {Model} model_id.
Arguments EInceptionModelInit {Model} api_key model_id.
Arguments EInceptionModelCall {Model} model_name.
Arguments EOpenAIClient {Model} api_key base_url.
Arguments EGenerateText {Model} model prompt tools max_tokens.

Arguments stdout_of {Model} ev.
Arguments stdout {Model} trace.
Arguments M Model A : clear implicits.
Arguments ret {Model A} a.
Arguments bind {Model A B} m k.
Arguments emit {Model} ev.
Arguments after {Model A} tr m.
Arguments print {Model} s.
Arguments input {Model} prompt t.
Arguments time_time {Model} now.
Arguments generate_text {Model} model prompt tools max_tokens t.
Arguments try_except {Model A} body on_KeyboardInterrupt on_Exception.
Arguments InceptionModel_init {Model} api_key model_id.
Arguments InceptionModel_call {Model} openai environ self model_name.
Arguments loop_body {Model} ddgs_text model t.
Arguments while_True {Model} ddgs_text model script.
Arguments main_setup {Model} api_key.
Arguments main_prologue {Model} api_key.
Arguments main {Model} openai ddgs_text environ api_key script.
Arguments program {Model} openai load_dotenv ddgs_text environ script.
Arguments is_generate_text {Model} ev.
Arguments is_openai {Model} ev.
Arguments is_InceptionModel {Model} ev.
Arguments model_of {Model} ev.
Arguments is_farewell {Model} ev.
Arguments processing_trace {Model} ddgs_text model question.
Arguments answer_trace {Model} result elapsed_time.
Arguments handled {Model} tr e.
Arguments loop_event {Model} model ev.
Arguments main_model {Model} openai load_dotenv environ api_key.

(** *** The report, as the specification describes it

    A 1-indexed numbered list; each entry is three lines (index and title,
    snippet, URL line), a missing field replaced by its placeholder; entries
    are separated by a blank line; no result gives the fixed sentence. *)
Definition spec_entry (index : nat) (result : gmap string string) : string :=
  join LF
    [ str_of_nat index +:+ ". " +:+ default "No title" (result !! "title");
      "   " +:+ default "No description" (result !! "body");
      "   URL: " +:+ default "No URL" (result !! "href") ].

Definition spec_entries (results : list (gmap string string)) : list string :=
  imap (fun k result => spec_entry (S k) result) results.

Definition spec_report (results : list (gmap string string)) : string :=
  match results with
  | [] => "No search results found."
  | _ => join (LF +:+ LF) (spec_entries results)
  end.

(** *** The termination trigger, as the specification words it

    The input is empty, or equals "exit" or "quit" without regard to case. *)
Definition spec_exit_input (line : string) : bool :=
  str_in (lower line) ["exit"; "quit"; ""].

(** *** A number written with two decimal places

    An optional sign, at least one digit, a point, two digits. *)
Definition two_decimals (s : string) : Prop :=
  exists (sign int_part : string) (d1 d2 : ascii),
    s = sign +:+ int_part +:+ "." +:+ String d1 (String d2 EmptyString)
    /\ (sign = "" \/ sign = "-")
    /\ int_part <> "" /\ all_digits int_part = true
    /\ is_digit d1 = true /\ is_digit d2 = true.

(* ===================================================================== *)
(** ** Sample inputs *)
(* ===================================================================== *)

(** Search engines: one that is rate-limited, one interrupted from the
    keyboard during the request, one with two hits (the second without any
    field), one without hits. *)
Definition ddgs_rate_limited
  : string -> Z -> py_result (list (gmap string string)) :=
  fun _ _ => Raise (PyExn (ExceptionClass "RatelimitException") "202 Ratelimit").

Definition ddgs_interrupted
  : string -> Z -> py_result (list (gmap string string)) :=
  fun _ _ => Raise (PyExn KeyboardInterrupt "").

Definition paris_hit : gmap string string :=
  {[ "title" := "Paris"; "body" := "Capital of France";
     "href" := "https://en.wikipedia.org/wiki/Paris" ]}.

Definition ddgs_two_hits
  : string -> Z -> py_result (list (gmap string string)) :=
  fun _ _ => Ret [paris_hit; ∅].

Definition ddgs_no_hit
  : string -> Z -> py_result (list (gmap string string)) :=
  fun _ _ => Ret [].

(** The model handle of the samples is the model name alone.  The first
    factory always returns it; the second wants a key that is not empty. *)
Definition openai_by_name (environ : gmap string string) (name : string)
  : py_result string := Ret name.

Definition openai_needs_key (environ : gmap string string) (name : string)
  : py_result string :=
  match environ !! "OPENAI_API_KEY" with
  | None | Some EmptyString =>
      Raise (PyExn (ExceptionClass "OpenAIError")
               "The api_key client option must be set")
  | Some _ => Ret name
  end.

(** Environments with and without the credential. *)
Definition environ_with_key : gmap string string :=
  {[ "INCEPTION_API_KEY" := "sk-test" ]}.

Definition environ_without_key : gmap string string := ∅.

Definition environ_with_empty_key : gmap string string :=
  {[ "INCEPTION_API_KEY" := "" ]}.

(** Turns: a question answered in 0.42 s, a question during which the model
    client fails, a question interrupted from the keyboard, the exit words,
    and a blank line. *)
Definition turn_paris : turn :=
  Turn (Ret "What is the capital of France?") 100.25%float
       (Ret {| text := "Paris" |}) 100.67%float.

Definition turn_failing : turn :=
  Turn (Ret "What is the capital of France?") 100.25%float
       (Raise (PyExn (ExceptionClass "APIConnectionError") "Connection error."))
       100.67%float.

Definition turn_interrupted : turn :=
  Turn (Ret "What is the capital of France?") 100.25%float
       (Raise (PyExn KeyboardInterrupt "")) 100.67%float.

Definition turn_of_line (line : string) : turn :=
  Turn (Ret line) 100.25%float (Ret {| text := "Paris" |}) 100.67%float.

Definition turn_blank : turn := turn_of_line "   ".

Definition turn_quit : turn := turn_of_line "  Quit  ".

(* ===================================================================== *)
(** ** Strings: basic facts *)
(* ===================================================================== *)

Lemma append_cons (x : ascii) (a b : string) :
  String x a +:+ b = String x (a +:+ b).
Proof. reflexivity. Qed.

Lemma append_assoc (a b c : string) : (a +:+ b) +:+ c = a +:+ b +:+ c.
Proof.
  induction a as [|x a IH]; [reflexivity|].
  rewrite !append_cons. now f_equal.
Qed.

Lemma has_LF_app (a b : string) : has_LF (a +:+ b) = has_LF a || has_LF b.
Proof.
  induction a as [|x a IH]; [reflexivity|].
  rewrite append_cons. simpl. now rewrite IH, orb_assoc.
Qed.

Lemma all_digits_app (a b : string) :
  all_digits (a +:+ b) = all_digits a && all_digits b.
Proof.
  induction a as [|x a IH]; [reflexivity|].
  rewrite append_cons. simpl. now rewrite IH, andb_assoc.
Qed.

Lemma is_digit_not_LF (c : ascii) :
  is_digit c = true -> Ascii.eqb c "010"%char = false.
Proof.
  intros H. destruct (Ascii.eqb_spec c "010"%char) as [->|]; [|reflexivity].
  discriminate H.
Qed.

Lemma all_digits_no_LF (s : string) : all_digits s = true -> has_LF s = false.
Proof.
  induction s as [|c s IH]; simpl; [reflexivity|].
  intros [Hc Hs]%andb_true_iff.
  now rewrite (is_digit_not_LF c Hc), (IH Hs).
Qed.

(** A string without line feed is one line; a line feed after such a string
    starts the next line. *)
Lemma lines_no_LF (a : string) : has_LF a = false -> lines a = [a].
Proof.
  induction a as [|c a IH]; simpl; [reflexivity|].
  intros [Hc Ha]%orb_false_iff. rewrite Hc, (IH Ha). reflexivity.
Qed.

Lemma lines_app_LF (a b : string) :
  has_LF a = false -> lines (a +:+ LF +:+ b) = a :: lines b.
Proof.
  induction a as [|c a IH]; [reflexivity|].
  rewrite append_cons. simpl.
  intros [Hc Ha]%orb_false_iff. rewrite Hc, (IH Ha). reflexivity.
Qed.

(** The decimal numerals of [pretty] are made of digits. *)
Lemma pretty_N_char_digit (x : N) : is_digit (pretty_N_char x) = true.
Proof. destruct x as [|p]; [reflexivity|]. do 4 (destruct p as [p|p|]; try reflexivity). Qed.

Lemma pretty_N_go_digits (x : N) (s : string) :
  all_digits s = true -> all_digits (pretty_N_go x s) = true.
Proof.
  revert s. induction (N.lt_wf_0 x) as [x _ IH]; intros s Hs.
  destruct (decide (x = 0)%N) as [->|Hx].
  - now rewrite pretty_N_go_0.
  - rewrite pretty_N_go_step by lia. apply IH.
    + apply N.div_lt; lia.
    + simpl. now rewrite pretty_N_char_digit.
Qed.

Lemma pretty_N_digits (x : N) : all_digits (pretty x) = true.
Proof.
  unfold pretty, pretty_N. destruct (decide (x = 0)%N); [reflexivity|].
  now apply pretty_N_go_digits.
Qed.

Lemma pretty_N_go_nonempty (x : N) (s : string) :
  s <> "" -> pretty_N_go x s <> "".
Proof.
  revert s. induction (N.lt_wf_0 x) as [x _ IH]; intros s Hs.
  destruct (decide (x = 0)%N) as [->|Hx].
  - now rewrite pretty_N_go_0.
  - rewrite pretty_N_go_step by lia. apply IH; [apply N.div_lt; lia | discriminate].
Qed.

Lemma pretty_N_nonempty (x : N) : pretty x <> "".
Proof.
  unfold pretty, pretty_N. destruct (decide (x = 0)%N) as [|Hx]; [discriminate|].
  rewrite pretty_N_go_step by lia. apply pretty_N_go_nonempty. discriminate.
Qed.

Lemma str_of_nat_digits (i : nat) : all_digits (str_of_nat i) = true.
Proof. apply pretty_N_digits. Qed.

(* ===================================================================== *)
(** ** The search adapter: results *)
(* ===================================================================== *)

Lemma dict_get_default (d : gmap string string) (key placeholder : string) :
  dict_get d key placeholder = default placeholder (d !! key).
Proof. unfold dict_get. now destruct (d !! key). Qed.

Lemma join_three (sep a b c : string) :
  join sep [a; b; c] = a +:+ sep +:+ b +:+ sep +:+ c.
Proof. reflexivity. Qed.

(** The f-string of the source builds the three lines of the entry. *)
Lemma format_entry_spec (i : nat) (result : gmap string string) :
  format_entry i (dict_get result "title" "No title")
    (dict_get result "body" "No description") (dict_get result "href" "No URL")
  = spec_entry i result.
Proof.
  unfold format_entry, spec_entry.
  rewrite !dict_get_default, join_three, !append_assoc. reflexivity.
Qed.

(** The loop appends one entry per result, numbered from [i] on. *)
Lemma format_loop_spec (results : list (gmap string string)) :
  forall (i : nat) (formatted_results : list string),
    format_loop i results formatted_results
    = formatted_results
        ++ imap (fun k result => spec_entry (i + k) result) results.
Proof.
  induction results as [|result rest IH]; intros i acc.
  - simpl. now rewrite app_nil_r.
  - cbn [format_loop]. rewrite IH, format_entry_spec, imap_cons.
    rewrite <- app_assoc. simpl. do 2 f_equal.
    + f_equal. lia.
    + apply imap_ext. intros k r _. simpl. f_equal. lia.
Qed.

Lemma format_loop_entries (results : list (gmap string string)) :
  format_loop 1 results [] = spec_entries results.
Proof. now rewrite format_loop_spec. Qed.

(** An entry whose fields hold no line feed is exactly three lines. *)
Lemma spec_entry_lines (i : nat) (result : gmap string string) :
  has_LF (default "No title" (result !! "title")) = false ->
  has_LF (default "No description" (result !! "body")) = false ->
  has_LF (default "No URL" (result !! "href")) = false ->
  lines (spec_entry i result)
  = [ str_of_nat i +:+ ". " +:+ default "No title" (result !! "title");
      "   " +:+ default "No description" (result !! "body");
      "   URL: " +:+ default "No URL" (result !! "href") ].
Proof.
  intros Ht Hs Hu. unfold spec_entry. rewrite join_three.
  rewrite lines_app_LF, lines_app_LF, lines_no_LF; try reflexivity.
  - rewrite has_LF_app. now rewrite Hu.
  - rewrite has_LF_app. now rewrite Hs.
  - rewrite !has_LF_app, Ht, (all_digits_no_LF _ (str_of_nat_digits i)).
    reflexivity.
Qed.

(** C1 (as amended).  Whatever the query and the result count asked for, as
    long as the search engine returns or fails with an exception derived from
    [Exception], [web_search_execute] returns a string; when the engine
    failed, the string is "Error performing web search: " followed by the
    message of the failure. *)
Theorem web_search_execute_fails_soft
    (ddgs_text : string -> Z -> py_result (list (gmap string string)))
    (query : string) (max_results : Z) :
  (forall e, ddgs_text query max_results = Raise e ->
             isinstance_Exception e = true) ->
  exists report : string,
    web_search_execute ddgs_text query max_results = Ret report
    /\ (forall e, ddgs_text query max_results = Raise e ->
          report = "Error performing web search: " +:+ exn_str e).
Proof.
  intros Hexn. unfold web_search_execute.
  destruct (ddgs_text query max_results) as [results|e] eqn:Hcall.
  - destruct results as [|result rest]; simpl; eexists; split;
      try reflexivity; intros e He; discriminate He.
  - simpl. rewrite (Hexn e eq_refl). eexists; split; [reflexivity|].
    intros e' [= <-]. reflexivity.
Qed.

(** An exception that does not derive from [Exception] leaves the adapter
    as it came. *)
Lemma web_search_execute_propagates
    (ddgs_text : string -> Z -> py_result (list (gmap string string)))
    (query : string) (max_results : Z) (e : py_exn) :
  ddgs_text query max_results = Raise e ->
  isinstance_Exception e = false ->
  web_search_execute ddgs_text query max_results = Raise e.
Proof.
  intros Hcall He. unfold web_search_execute. rewrite Hcall. simpl.
  now rewrite He.
Qed.

(** C2.  When the search engine returns a result list, the adapter returns
    the report of the specification: the fixed sentence for the empty list,
    and otherwise one entry per result, in list order and numbered from 1,
    joined by a blank line; an entry is the three lines index and title,
    snippet, URL line, with the placeholders for missing fields. *)
Theorem web_search_execute_report
    (ddgs_text : string -> Z -> py_result (list (gmap string string)))
    (query : string) (max_results : Z) (results : list (gmap string string)) :
  ddgs_text query max_results = Ret results ->
  web_search_execute ddgs_text query max_results = Ret (spec_report results)
  /\ (results = [] -> spec_report results = "No search results found.")
  /\ (results <> [] ->
      spec_report results = join (LF +:+ LF) (spec_entries results))
  /\ length (spec_entries results) = length results
  /\ (forall (k : nat) (result : gmap string string),
        results !! k = Some result ->
        spec_entries results !! k = Some (spec_entry (S k) result)
        /\ spec_entry (S k) result
           = str_of_nat (S k) +:+ ". "
               +:+ default "No title" (result !! "title") +:+ LF
               +:+ "   " +:+ default "No description" (result !! "body") +:+ LF
               +:+ "   URL: " +:+ default "No URL" (result !! "href")
        /\ (has_LF (default "No title" (result !! "title")) = false ->
            has_LF (default "No description" (result !! "body")) = false ->
            has_LF (default "No URL" (result !! "href")) = false ->
            length (lines (spec_entry (S k) result)) = 3%nat)).
Proof.
  intros Hcall. repeat split.
  - unfold web_search_execute. rewrite Hcall. simpl.
    destruct results as [|result rest]; [reflexivity|].
    now rewrite format_loop_entries.
  - now intros ->.
  - destruct results; [congruence | reflexivity].
  - apply length_imap.
  - unfold spec_entries. rewrite list_lookup_imap, H. reflexivity.
  - unfold spec_entry. now rewrite join_three, !append_assoc.
  - intros Ht Hs Hu. now rewrite spec_entry_lines.
Qed.

(* ===================================================================== *)
(** ** The [.2f] format *)
(* ===================================================================== *)

(** [round_half_even] is a nearest integer of the quotient. *)
Lemma round_half_even_nearest (num den : Z) :
  0 <= num -> 0 < den ->
  2 * Z.abs (num - round_half_even num den * den) <= den.
Proof.
  intros Hnum Hden. unfold round_half_even.
  pose proof (Z.div_mod num den ltac:(lia)) as Hdiv.
  pose proof (Z.mod_pos_bound num den Hden) as Hmod.
  destruct (Z.compare_spec (2 * (num mod den)) den);
    try destruct (Z.even (num / den)); nia.
Qed.

Lemma round_half_even_nonneg (num den : Z) :
  0 <= num -> 0 < den -> 0 <= round_half_even num den.
Proof.
  intros Hnum Hden. unfold round_half_even.
  pose proof (Z.div_pos num den Hnum Hden).
  destruct (2 * (num mod den) ?= den); try destruct (Z.even (num / den)); lia.
Qed.

(** The hundredths of [m * 2^e]: exact when [e >= 0], within half a
    hundredth otherwise. *)
Lemma hundredths_nearest (m : positive) (e : Z) :
  (0 <= e -> hundredths m e = 100 * Z.pos m * 2 ^ e)
  /\ (e < 0 ->
      2 * Z.abs (100 * Z.pos m - hundredths m e * 2 ^ (- e)) <= 2 ^ (- e)).
Proof.
  unfold hundredths. split; intros He.
  - destruct (Z.leb_spec 0 e); [reflexivity | lia].
  - destruct (Z.leb_spec 0 e); [lia|].
    apply round_half_even_nearest; [lia|].
    apply Z.pow_pos_nonneg; lia.
Qed.

Lemma digit_is_digit (n : Z) :
  0 <= n < 10 -> is_digit (ascii_of_N (48 + Z.to_N n)) = true.
Proof.
  intros Hn. assert (Z.to_N n < 10)%N as Hk by lia.
  destruct (Z.to_N n) as [|p]; [reflexivity|].
  do 4 (try destruct p as [p|p|]; try reflexivity; try lia).
Qed.

Lemma fixed2_two_decimals (sign : string) (h : Z) :
  sign = "" \/ sign = "-" -> two_decimals (sign +:+ fixed2 h).
Proof.
  intros Hsign. unfold fixed2, digit.
  exists sign, (pretty (Z.to_N (h / 100))),
    (ascii_of_N (48 + Z.to_N (h mod 100 / 10))),
    (ascii_of_N (48 + Z.to_N (h mod 10))).
  repeat split.
  - exact Hsign.
  - apply pretty_N_nonempty.
  - apply pretty_N_digits.
  - apply digit_is_digit.
    pose proof (Z.mod_pos_bound h 100 ltac:(lia)).
    split; [apply Z.div_pos; lia | apply Z.div_lt_upper_bound; lia].
  - apply digit_is_digit. apply Z.mod_pos_bound. lia.
Qed.

(** A finite number of seconds is printed with two decimal places. *)
Lemma format_2f_two_decimals (x : float) :
  is_finite x = true -> two_decimals (format_2f x).
Proof.
  unfold is_finite, format_2f.
  destruct (Prim2SF x) as [s|s| |s m e]; try discriminate; intros _.
  - exists (if s then "-" else ""), "0", "0"%char, "0"%char.
    repeat split; try discriminate. destruct s; auto.
  - apply fixed2_two_decimals. destruct s; auto.
Qed.

(** The digits printed are those of the nearest number of hundredths. *)
Lemma format_2f_finite (x : float) (s : bool) (m : positive) (e : Z) :
  Prim2SF x = S754_finite s m e ->
  format_2f x = (if s then "-" else "") +:+ fixed2 (hundredths m e)
  /\ 0 <= hundredths m e.
Proof.
  intros Hx. unfold format_2f. rewrite Hx. split; [reflexivity|].
  unfold hundredths. destruct (Z.leb_spec 0 e).
  - pose proof (Z.pow_nonneg 2 e ltac:(lia)). nia.
  - apply round_half_even_nonneg; [lia | apply Z.pow_pos_nonneg; lia].
Qed.

(* ===================================================================== *)
(** ** The loop body, case by case *)
(* ===================================================================== *)

Section LoopFacts.

Context {Model : Type}.
Variable ddgs_text : string -> Z -> py_result (list (gmap string string)).
Variable model : Model.

Lemma loop_body_eq (t : turn) :
  loop_body ddgs_text model t =
  match turn_input t with
  | Raise e => handled [EInput "Your question: "] e
  | Ret line =>
      if is_exit (strip line) then
        ([EInput "Your question: "; EPrint "Goodbye!"], Ret Break)
      else
        match turn_generate t with
        | Ret result =>
            (processing_trace ddgs_text model (strip line)
               ++ answer_trace result (PrimFloat.sub (turn_end t) (turn_start t)),
             Ret Next)
        | Raise e => handled (processing_trace ddgs_text model (strip line)) e
        end
  end.
Proof.
  destruct t as [line start generated stop].
  unfold loop_body, try_except, handled, mbind, M_bind, bind, input,
    generate_text, time_time, print, emit, mret, M_ret, ret, after. simpl.
  destruct line as [line|e]; simpl.
  - destruct (is_exit (strip line)); simpl; [reflexivity|].
    destruct generated as [result|e]; simpl; [reflexivity|].
    destruct (isinstance_KeyboardInterrupt e); [reflexivity|].
    destruct (isinstance_Exception e); reflexivity.
  - destruct (isinstance_KeyboardInterrupt e); [reflexivity|].
    destruct (isinstance_Exception e); reflexivity.
Qed.

Lemma Exception_not_KeyboardInterrupt (e : py_exn) :
  isinstance_Exception e = true -> isinstance_KeyboardInterrupt e = false.
Proof.
  unfold isinstance_Exception, isinstance_KeyboardInterrupt.
  now destruct (exn_class_of e).
Qed.

(** Every pass starts by prompting. *)
Lemma loop_body_prompts (t : turn) :
  exists tr, fst (loop_body ddgs_text model t) = EInput "Your question: " :: tr.
Proof.
  rewrite loop_body_eq. unfold handled.
  destruct (turn_input t) as [line|e].
  - destruct (is_exit (strip line)); [eexists; reflexivity|].
    destruct (turn_generate t) as [result|e]; [eexists; reflexivity|].
    destruct (isinstance_KeyboardInterrupt e); [eexists; reflexivity|].
    destruct (isinstance_Exception e); eexists; reflexivity.
  - destruct (isinstance_KeyboardInterrupt e); [eexists; reflexivity|].
    destruct (isinstance_Exception e); eexists; reflexivity.
Qed.

(** A line that is not an exit word reaches the model client. *)
Lemma loop_body_processing (t : turn) (line : string) :
  turn_input t = Ret line ->
  is_exit (strip line) = false ->
  exists tr,
    fst (loop_body ddgs_text model t) = processing_trace ddgs_text model (strip line) ++ tr.
Proof.
  intros Hline Hexit. rewrite loop_body_eq, Hline, Hexit. unfold handled.
  destruct (turn_generate t) as [result|e]; [eexists; reflexivity|].
  destruct (isinstance_KeyboardInterrupt e); [eexists; reflexivity|].
  destruct (isinstance_Exception e); eexists; reflexivity.
Qed.

(** The pass ends the loop exactly on the turns of [ends_loop]. *)
Lemma loop_body_Break_iff (t : turn) :
  snd (loop_body ddgs_text model t) = Ret Break <-> ends_loop t = true.
Proof.
  rewrite loop_body_eq. unfold ends_loop, handled, interrupted.
  destruct (turn_input t) as [line|e].
  - destruct (is_exit (strip line)); simpl; [tauto|].
    destruct (turn_generate t) as [result|e]; simpl; [split; discriminate|].
    destruct (isinstance_KeyboardInterrupt e); simpl; [tauto|].
    destruct (isinstance_Exception e); simpl; split; discriminate.
  - destruct (isinstance_KeyboardInterrupt e); simpl; [tauto|].
    destruct (isinstance_Exception e); simpl; split; discriminate.
Qed.

(** A pass that ends the loop prints a farewell last. *)
Lemma loop_body_farewell (t : turn) :
  ends_loop t = true ->
  exists tr farewell,
    is_farewell farewell
    /\ loop_body ddgs_text model t = (tr ++ [farewell], Ret Break).
Proof.
  rewrite loop_body_eq. unfold ends_loop, handled, interrupted, is_farewell.
  destruct (turn_input t) as [line|e].
  - destruct (is_exit (strip line)); simpl.
    + intros _. exists [EInput "Your question: "], (EPrint "Goodbye!"). auto.
    + destruct (turn_generate t) as [result|e]; [discriminate|].
      intros ->.
      exists (processing_trace ddgs_text model (strip line)),
        (EPrint (LF +:+ LF +:+ "Goodbye!")).
      auto.
  - intros ->.
    exists [EInput "Your question: "], (EPrint (LF +:+ LF +:+ "Goodbye!")).
    auto.
Qed.

(** The loop, turn by turn. *)
Lemma while_True_Next (t : turn) (rest : list turn) :
  snd (loop_body ddgs_text model t) = Ret Next ->
  while_True ddgs_text model (t :: rest)
  = (fst (loop_body ddgs_text model t) ++ fst (while_True ddgs_text model rest),
     snd (while_True ddgs_text model rest)).
Proof.
  cbn [while_True].
  destruct (loop_body ddgs_text model t) as [tr [[|]|e]]; simpl;
    try discriminate.
  intros _. now destruct (while_True ddgs_text model rest).
Qed.

Lemma while_True_Break (t : turn) (rest : list turn) :
  snd (loop_body ddgs_text model t) = Ret Break ->
  while_True ddgs_text model (t :: rest)
  = (fst (loop_body ddgs_text model t), Returned).
Proof.
  cbn [while_True].
  now destruct (loop_body ddgs_text model t) as [tr [[|]|e]].
Qed.

Lemma while_True_Raise (t : turn) (rest : list turn) (e : py_exn) :
  snd (loop_body ddgs_text model t) = Raise e ->
  while_True ddgs_text model (t :: rest)
  = (fst (loop_body ddgs_text model t), Uncaught e).
Proof.
  cbn [while_True].
  destruct (loop_body ddgs_text model t) as [tr [[|]|e']]; simpl;
    try discriminate.
  now intros [= ->].
Qed.

(** Turns that all fall through to the next pass are consumed in order. *)
Lemma while_True_app (pre rest : list turn) :
  Forall (fun u => snd (loop_body ddgs_text model u) = Ret Next) pre ->
  while_True ddgs_text model (pre ++ rest)
  = (concat (map (fun u => fst (loop_body ddgs_text model u)) pre)
       ++ fst (while_True ddgs_text model rest),
     snd (while_True ddgs_text model rest)).
Proof.
  induction 1 as [|u pre Hu _ IH].
  - simpl. now destruct (while_True ddgs_text model rest).
  - rewrite <- app_comm_cons, while_True_Next, IH by exact Hu.
    simpl. now rewrite app_assoc.
Qed.

Lemma while_True_prompts (script : list turn) :
  exists tr,
    fst (while_True ddgs_text model script) = EInput "Your question: " :: tr.
Proof.
  destruct script as [|t rest]; [eexists; reflexivity|].
  destruct (loop_body_prompts t) as [tr Htr].
  destruct (snd (loop_body ddgs_text model t)) as [[|]|e] eqn:Hend.
  - rewrite while_True_Next by exact Hend. simpl. rewrite Htr.
    eexists. reflexivity.
  - rewrite while_True_Break by exact Hend. simpl. eauto.
  - rewrite (while_True_Raise _ _ e) by exact Hend. simpl. eauto.
Qed.

Ltac each_event :=
  repeat match goal with
         | |- Forall _ (_ :: _) => constructor; [solve [auto] |]
         | |- Forall _ [] => constructor
         | |- Forall _ (_ ++ _) => apply Forall_app_2
         end.

Lemma loop_body_events (t : turn) :
  Forall (loop_event model) (fst (loop_body ddgs_text model t)).
Proof.
  assert (forall s, loop_event model (EPrint s)) as Hprint
      by (intros s; repeat split; discriminate).
  assert (forall s, loop_event model (EInput s)) as Hinput
      by (intros s; repeat split; discriminate).
  assert (loop_event model ETime) as Htime by (repeat split; discriminate).
  assert (forall q, loop_event model
            (EGenerateText model q [web_search ddgs_text] 1000)) as Hgen.
  { intros q. repeat split. simpl. now intros m [= <-]. }
  rewrite loop_body_eq. unfold handled, answer_trace, processing_trace.
  destruct (turn_input t) as [line|e].
  - destruct (is_exit (strip line)); cbn [fst]; [each_event|].
    destruct (turn_generate t) as [result|e]; cbn [fst]; [each_event|].
    destruct (isinstance_KeyboardInterrupt e);
      [|destruct (isinstance_Exception e)]; cbn [fst]; each_event.
  - destruct (isinstance_KeyboardInterrupt e);
      [|destruct (isinstance_Exception e)]; cbn [fst]; each_event.
Qed.

Lemma while_True_events (script : list turn) :
  Forall (loop_event model) (fst (while_True ddgs_text model script)).
Proof.
  induction script as [|t rest IH].
  - simpl. repeat constructor; discriminate.
  - pose proof (loop_body_events t) as Ht.
    destruct (snd (loop_body ddgs_text model t)) as [[|]|e] eqn:Hend.
    + rewrite while_True_Next by exact Hend. simpl.
      now apply Forall_app_2.
    + now rewrite while_True_Break by exact Hend.
    + now rewrite (while_True_Raise _ _ e) by exact Hend.
Qed.

End LoopFacts.

(* ===================================================================== *)
(** ** The exit test *)
(* ===================================================================== *)

Lemma lstrip_all_space (s : string) : all_space s = true -> lstrip s = "".
Proof.
  induction s as [|c s IH]; simpl; [reflexivity|].
  intros [Hc Hs]%andb_true_iff. rewrite Hc. exact (IH Hs).
Qed.

Lemma rstrip_empty (s : string) : rstrip s = "" -> all_space s = true.
Proof.
  induction s as [|c s IH]; simpl; [reflexivity|].
  destruct (rstrip s); [|discriminate].
  destruct (isspace c); [|discriminate]. intros _. now apply IH.
Qed.

Lemma lstrip_space_back (s : string) :
  all_space (lstrip s) = true -> all_space s = true.
Proof.
  induction s as [|c s IH]; simpl; [reflexivity|].
  destruct (isspace c) eqn:Hc; simpl; [exact IH|].
  now rewrite Hc.
Qed.

(** A line is trimmed to nothing exactly when it is white space only. *)
Lemma strip_empty_iff (s : string) : strip s = "" <-> all_space s = true.
Proof.
  unfold strip. split.
  - intros H. now apply lstrip_space_back, rstrip_empty.
  - intros H. now rewrite lstrip_all_space.
Qed.

Lemma lower_empty_iff (q : string) : lower q = "" <-> q = "".
Proof. destruct q; simpl; split; congruence. Qed.

(** The membership test of the source, spelled out. *)
Lemma is_exit_iff (q : string) :
  is_exit q = true <-> q = "" \/ lower q = "exit" \/ lower q = "quit".
Proof.
  unfold is_exit, str_in. simpl.
  rewrite !orb_true_iff, !String.eqb_eq, lower_empty_iff.
  intuition discriminate.
Qed.

Lemma is_exit_false_iff (q : string) :
  is_exit q = false <-> q <> "" /\ lower q <> "exit" /\ lower q <> "quit".
Proof.
  rewrite <- not_true_iff_false, is_exit_iff. tauto.
Qed.

(* ===================================================================== *)
(** ** The agent loop and the program *)
(* ===================================================================== *)

Section AgentLoop.

Context {Model : Type}.
Variable openai : gmap string string -> string -> py_result Model.
Variable load_dotenv : gmap string string -> gmap string string.
Variable ddgs_text : string -> Z -> py_result (list (gmap string string)).

Lemma program_with_key (environ : gmap string string) (api_key : string)
    (model : Model) (script : list turn) :
  os_getenv (load_dotenv environ) "INCEPTION_API_KEY" = Some api_key ->
  main_model openai load_dotenv environ api_key = Ret model ->
  program openai load_dotenv ddgs_text environ script
  = (main_prologue api_key ++ fst (while_True ddgs_text model script),
     snd (while_True ddgs_text model script)).
Proof.
  unfold main_model. intros Hkey Hmodel. unfold program, main.
  rewrite Hkey, Hmodel. now destruct (while_True _ _ script).
Qed.

Lemma program_openai_raises (environ : gmap string string) (api_key : string)
    (e : py_exn) (script : list turn) :
  os_getenv (load_dotenv environ) "INCEPTION_API_KEY" = Some api_key ->
  main_model openai load_dotenv environ api_key = Raise e ->
  program openai load_dotenv ddgs_text environ script
  = (main_setup api_key, Uncaught e).
Proof.
  unfold main_model. intros Hkey Hmodel. unfold program, main.
  now rewrite Hkey, Hmodel.
Qed.

(** The three ways a run starts: no credential, a credential and a failing
    [openai], a credential and a model handle. *)
Lemma program_cases (environ : gmap string string) (script : list turn) :
  program openai load_dotenv ddgs_text environ script
  = ([], Uncaught (PyExn (ExceptionClass "Exception")
                     "INCEPTION_API_KEY not found in environment variables"))
  \/ (exists api_key e,
        program openai load_dotenv ddgs_text environ script
        = (main_setup api_key, Uncaught e))
  \/ (exists api_key model,
        main_model openai load_dotenv environ api_key = Ret model
        /\ program openai load_dotenv ddgs_text environ script
           = (main_prologue api_key ++ fst (while_True ddgs_text model script),
              snd (while_True ddgs_text model script))).
Proof.
  destruct (os_getenv (load_dotenv environ) "INCEPTION_API_KEY")
    as [api_key|] eqn:Hkey.
  - destruct (main_model openai load_dotenv environ api_key)
      as [model|e] eqn:Hmodel.
    + right. right. exists api_key, model. split; [exact Hmodel|].
      now apply program_with_key.
    + right. left. exists api_key, e. now apply program_openai_raises.
  - left. unfold program. now rewrite Hkey.
Qed.

Lemma ends_loop_iff (t : turn) :
  ends_loop t = true <->
  (exists line, turn_input t = Ret line
     /\ (strip line = "" \/ lower (strip line) = "exit"
         \/ lower (strip line) = "quit"))
  \/ interrupted (turn_input t) = true
  \/ (exists line, turn_input t = Ret line
        /\ interrupted (turn_generate t) = true).
Proof.
  unfold ends_loop. destruct (turn_input t) as [line|e]; simpl.
  - rewrite orb_true_iff, is_exit_iff. split.
    + intros [H|H]; [left | right; right]; eauto.
    + intros [(l & [= <-] & H)|[H|(l & [= <-] & H)]]; auto. discriminate.
  - split; [auto|].
    intros [(l & H & _)|[H|(l & H & _)]]; auto; discriminate.
Qed.

(** C3 (as amended).  With the credential present, the model handle
    obtained and every earlier turn passed on to the next, the pass over a
    turn leaves the loop exactly when the line read, once trimmed, is empty
    or equals "exit" or "quit" without regard to case, or
    [KeyboardInterrupt] is raised (while reading, or while answering).  The
    program then ends after printing a farewell, with exit status 0.  Every
    other line read reaches the model client. *)
Theorem agent_loop_termination (environ : gmap string string)
    (api_key : string) (model : Model) (pre : list turn) (t : turn)
    (rest : list turn) :
  os_getenv (load_dotenv environ) "INCEPTION_API_KEY" = Some api_key ->
  main_model openai load_dotenv environ api_key = Ret model ->
  Forall (fun u => snd (loop_body ddgs_text model u) = Ret Next) pre ->
  (snd (loop_body ddgs_text model t) = Ret Break <->
     (exists line, turn_input t = Ret line
        /\ (strip line = "" \/ lower (strip line) = "exit"
            \/ lower (strip line) = "quit"))
     \/ interrupted (turn_input t) = true
     \/ (exists line, turn_input t = Ret line
           /\ interrupted (turn_generate t) = true))
  /\ (snd (loop_body ddgs_text model t) = Ret Break ->
      exists tr farewell,
        is_farewell farewell
        /\ program openai load_dotenv ddgs_text environ (pre ++ t :: rest)
           = (tr ++ [farewell], Returned)
        /\ exit_status
             (snd (program openai load_dotenv ddgs_text environ
                     (pre ++ t :: rest))) = Some 0)
  /\ (forall line,
        turn_input t = Ret line ->
        strip line <> "" -> lower (strip line) <> "exit" ->
        lower (strip line) <> "quit" ->
        In (EGenerateText model (strip line) [web_search ddgs_text] 1000)
           (fst (loop_body ddgs_text model t))).
Proof.
  intros Hkey Hmodel Hpre. split; [|split].
  - now rewrite loop_body_Break_iff, ends_loop_iff.
  - intros Hbreak.
    destruct (loop_body_farewell ddgs_text model t)
      as (tr & farewell & Hfarewell & Hbody).
    { now apply loop_body_Break_iff in Hbreak. }
    assert (program openai load_dotenv ddgs_text environ (pre ++ t :: rest)
            = ((main_prologue api_key
                  ++ concat (map (fun u => fst (loop_body ddgs_text model u))
                       pre) ++ tr) ++ [farewell], Returned)) as Hrun.
    { rewrite (program_with_key environ api_key model) by assumption.
      rewrite while_True_app by exact Hpre.
      rewrite while_True_Break by exact Hbreak.
      rewrite Hbody. cbn [fst snd]. now rewrite <- !app_assoc. }
    eexists _, farewell. split; [exact Hfarewell|]. split; [exact Hrun|].
    now rewrite Hrun.
  - intros line Hline H1 H2 H3.
    destruct (loop_body_processing ddgs_text model t line Hline) as [tr ->].
    { now apply is_exit_false_iff. }
    unfold processing_trace. simpl. auto.
Qed.

(** C4 (as amended).  When [generate_text] raises an exception derived from
    [Exception] while a question is answered, the pass prints the line
    "\nError: <message>\n" and goes on to the next pass; a following question
    that succeeds is asked and answered as usual. *)
Theorem generate_error_is_reported (model : Model) (t : turn) (line : string)
    (e : py_exn) (rest : list turn) :
  turn_input t = Ret line ->
  is_exit (strip line) = false ->
  turn_generate t = Raise e ->
  isinstance_Exception e = true ->
  loop_body ddgs_text model t
  = (processing_trace ddgs_text model (strip line)
       ++ [EPrint (LF +:+ "Error: " +:+ exn_str e +:+ LF)], Ret Next)
  /\ while_True ddgs_text model (t :: rest)
     = (fst (loop_body ddgs_text model t)
          ++ fst (while_True ddgs_text model rest),
        snd (while_True ddgs_text model rest))
  /\ (forall (u : turn) (rest' : list turn) (line' : string)
             (result : GenerateTextResult),
        rest = u :: rest' ->
        turn_input u = Ret line' ->
        is_exit (strip line') = false ->
        turn_generate u = Ret result ->
        exists tr,
          fst (while_True ddgs_text model (t :: rest))
          = fst (loop_body ddgs_text model t)
              ++ processing_trace ddgs_text model (strip line')
              ++ answer_trace result
                   (PrimFloat.sub (turn_end u) (turn_start u))
              ++ tr).
Proof.
  intros Hline Hexit Hgen He.
  assert (loop_body ddgs_text model t
          = (processing_trace ddgs_text model (strip line)
               ++ [EPrint (LF +:+ "Error: " +:+ exn_str e +:+ LF)], Ret Next))
    as Hbody.
  { rewrite loop_body_eq, Hline, Hexit, Hgen. unfold handled.
    now rewrite (Exception_not_KeyboardInterrupt e He), He. }
  assert (snd (loop_body ddgs_text model t) = Ret Next) as Hnext
      by now rewrite Hbody.
  split; [exact Hbody|]. split; [now apply while_True_Next|].
  intros u rest' line' result -> Hline' Hexit' Hgen'.
  assert (loop_body ddgs_text model u
          = (processing_trace ddgs_text model (strip line')
               ++ answer_trace result
                    (PrimFloat.sub (turn_end u) (turn_start u)), Ret Next))
    as Hbody'.
  { now rewrite loop_body_eq, Hline', Hexit', Hgen'. }
  rewrite while_True_Next by exact Hnext.
  rewrite while_True_Next by now rewrite Hbody'.
  rewrite Hbody'. cbn [fst]. rewrite <- app_assoc. eauto.
Qed.



(** C8 (as amended).  [KeyboardInterrupt] raised while a question is
    answered is handled by the interrupt clause of the loop, not by the
    clause for other errors: the pass prints "\n\nGoodbye!" and leaves the
    loop, no further turn is read, and the program (started with the
    credential and the model handle) ends with exit status 0. *)
Theorem interrupt_while_processing (model : Model) (t : turn) (line : string)
    (e : py_exn) (rest : list turn) :
  turn_input t = Ret line ->
  is_exit (strip line) = false ->
  turn_generate t = Raise e ->
  isinstance_KeyboardInterrupt e = true ->
  loop_body ddgs_text model t
  = (processing_trace ddgs_text model (strip line)
       ++ [EPrint (LF +:+ LF +:+ "Goodbye!")], Ret Break)
  /\ while_True ddgs_text model (t :: rest)
     = (processing_trace ddgs_text model (strip line)
          ++ [EPrint (LF +:+ LF +:+ "Goodbye!")], Returned)
  /\ (forall environ api_key m,
        os_getenv (load_dotenv environ) "INCEPTION_API_KEY" = Some api_key ->
        main_model openai load_dotenv environ api_key = Ret m ->
        exit_status
          (snd (program openai load_dotenv ddgs_text environ (t :: rest)))
        = Some 0).
Proof.
  intros Hline Hexit Hgen He.
  assert (forall m : Model,
            loop_body ddgs_text m t
            = (processing_trace ddgs_text m (strip line)
                 ++ [EPrint (LF +:+ LF +:+ "Goodbye!")], Ret Break)) as Hbody.
  { intros m. rewrite loop_body_eq, Hline, Hexit, Hgen. unfold handled.
    now rewrite He. }
  split; [apply Hbody|]. split.
  - rewrite while_True_Break by now rewrite Hbody. now rewrite Hbody.
  - intros environ api_key m Hkey Hmodel.
    rewrite (program_with_key environ api_key m) by assumption.
    cbn [snd]. rewrite while_True_Break by now rewrite Hbody. reflexivity.
Qed.

(** C9.  The exit test looks at the line trimmed and in lower case: a line of
    white space only, or one whose trimmed lower-case form is "exit" or
    "quit", ends the loop with the farewell and without any call of the
    model client; any other line, also one that only contains such a word,
    reaches the model client with the trimmed line as prompt. *)
Theorem exit_test_uses_trimmed_input (model : Model) (t : turn)
    (line : string) :
  turn_input t = Ret line ->
  (all_space line = true \/ lower (strip line) = "exit"
   \/ lower (strip line) = "quit" ->
   loop_body ddgs_text model t
   = ([EInput "Your question: "; EPrint "Goodbye!"], Ret Break)
   /\ Forall (fun ev => is_generate_text ev = false)
        (fst (loop_body ddgs_text model t)))
  /\ (all_space line = false ->
      lower (strip line) <> "exit" ->
      lower (strip line) <> "quit" ->
      exists tr,
        fst (loop_body ddgs_text model t)
        = [ EInput "Your question: "; ETime;
            EGenerateText model (strip line) [web_search ddgs_text] 1000 ]
            ++ tr).
Proof.
  intros Hline. split.
  - intros Hexit.
    assert (is_exit (strip line) = true) as Htest.
    { apply is_exit_iff. rewrite strip_empty_iff. exact Hexit. }
    assert (loop_body ddgs_text model t
            = ([EInput "Your question: "; EPrint "Goodbye!"], Ret Break))
      as Hbody by now rewrite loop_body_eq, Hline, Htest.
    split; [exact Hbody|]. rewrite Hbody. now repeat constructor.
  - intros Hspace Hno_exit Hno_quit.
    apply (loop_body_processing ddgs_text model t line Hline).
    apply is_exit_false_iff. rewrite strip_empty_iff. split; [|tauto].
    now rewrite Hspace.
Qed.

(** C10.  In no run of the program is [InceptionModel] built or called, nor
    an [openai_client.OpenAI] made, both of which every use of the wrapper
    shows in the trace.  With the credential present the run starts by
    setting OPENAI_API_KEY and OPENAI_BASE_URL and calling
    [openai("mercury")] once, and every call of [generate_text] carries the
    handle so obtained. *)
Theorem InceptionModel_is_never_used (environ : gmap string string)
    (script : list turn) :
  Forall (fun ev => is_InceptionModel ev = false)
    (fst (program openai load_dotenv ddgs_text environ script))
  /\ (forall api_key model_id,
        existsb is_InceptionModel
          (fst (InceptionModel_init (Model := Model) api_key model_id)) = true)
  /\ (forall env self model_name,
        existsb is_InceptionModel
          (fst (InceptionModel_call openai env self model_name)) = true)
  /\ (forall api_key,
        os_getenv (load_dotenv environ) "INCEPTION_API_KEY" = Some api_key ->
        exists tr,
          fst (program openai load_dotenv ddgs_text environ script)
          = [ ESetEnv "OPENAI_API_KEY" api_key;
              ESetEnv "OPENAI_BASE_URL" "https://api.inceptionlabs.ai/v1";
              EOpenai "mercury" ] ++ tr
          /\ Forall (fun ev => is_openai ev = false) tr
          /\ Forall (fun ev =>
                       forall m, model_of ev = Some m ->
                                 openai
                                   (<["OPENAI_BASE_URL" :=
                                        "https://api.inceptionlabs.ai/v1"]>
                                      (<["OPENAI_API_KEY" := api_key]>
                                         (load_dotenv environ)))
                                   "mercury" = Ret m)
               (fst (program openai load_dotenv ddgs_text environ script))).
Proof.
  split; [|split; [|split]].
  - destruct (program_cases environ script)
      as [->|[(api_key & e & ->)|(api_key & model & _ & ->)]]; cbn [fst].
    + constructor.
    + now repeat constructor.
    + apply Forall_app_2; [now repeat constructor|].
      eapply Forall_impl; [apply (while_True_events ddgs_text model)|].
      now intros ev [H _].
  - reflexivity.
  - reflexivity.
  - intros api_key Hkey.
    destruct (main_model openai load_dotenv environ api_key)
      as [model|e] eqn:Hmodel.
    + rewrite (program_with_key environ api_key model) by assumption.
      cbn [fst].
      pose proof (while_True_events ddgs_text model script) as Hloop.
      eexists. split; [reflexivity|]. split.
      * constructor; [reflexivity|]. constructor; [reflexivity|].
        eapply Forall_impl; [exact Hloop|]. now intros ev (_ & H & _).
      * apply Forall_app_2; [repeat constructor; discriminate|].
        eapply Forall_impl; [exact Hloop|].
        intros ev (_ & _ & H) m Hm. rewrite (H m Hm). exact Hmodel.
    + rewrite (program_openai_raises environ api_key e) by assumption.
      cbn [fst]. exists []. split; [reflexivity|]. split; [constructor|].
      repeat constructor; discriminate.
Qed.

End AgentLoop.

(* ===================================================================== *)
(** ** The tool schema *)
(* ===================================================================== *)

(** C6 (as amended).  The parameter schema of the [web_search] tool is the
    schema of the specification with one more member in each of its two
    properties, a [description] string; without these two members it is
    exactly the schema of the specification. *)
Theorem web_search_schema
    (ddgs_text : string -> Z -> py_result (list (gmap string string))) :
  tool_parameters (web_search ddgs_text) = web_search_parameters
  /\ without_descriptions (tool_parameters (web_search ddgs_text)) = spec_schema
  /\ get_path ["properties"; "query"; "description"]
       (tool_parameters (web_search ddgs_text))
     = Some (JString "The search query to look up on the web")
  /\ get_path ["properties"; "max_results"; "description"]
       (tool_parameters (web_search ddgs_text))
     = Some (JString "Maximum number of results to return")
  /\ get_path ["properties"; "query"; "description"] spec_schema = None
  /\ get_path ["properties"; "max_results"; "description"] spec_schema = None.
Proof. repeat split. Qed.

(* ===================================================================== *)
(** ** The statements on the sample inputs *)
(* ===================================================================== *)

(** C1, as stated, fails: an interrupt raised inside the search request is
    not an [Exception] and leaves [web_search_execute]. *)
Lemma web_search_execute_raises_on_interrupt :
  web_search_execute ddgs_interrupted "capital of France" 5
  = Raise (PyExn KeyboardInterrupt "")
  /\ ~ (exists report : string,
          web_search_execute ddgs_interrupted "capital of France" 5
          = Ret report).
Proof. split; [reflexivity|]. intros [report H]. discriminate H. Qed.

Lemma web_search_execute_fails_soft_witness :
  exists report : string,
    web_search_execute ddgs_rate_limited "capital of France" 5 = Ret report
    /\ (forall e, ddgs_rate_limited "capital of France" 5 = Raise e ->
          report = "Error performing web search: " +:+ exn_str e).
Proof.
  apply (web_search_execute_fails_soft ddgs_rate_limited "capital of France" 5).
  intros e [= <-]. reflexivity.
Defined.

Lemma web_search_execute_report_witness :
  web_search_execute ddgs_two_hits "capital of France" 5
  = Ret ("1. Paris" +:+ LF +:+ "   Capital of France" +:+ LF
           +:+ "   URL: https://en.wikipedia.org/wiki/Paris" +:+ LF +:+ LF
           +:+ "2. No title" +:+ LF +:+ "   No description" +:+ LF
           +:+ "   URL: No URL").
Proof.
  exact (proj1 (web_search_execute_report ddgs_two_hits "capital of France" 5
                  [paris_hit; ∅] eq_refl)).
Defined.

(** C3, as stated, fails: a line of three spaces is not empty and is no exit
    word, yet the pass prints the farewell and leaves the loop. *)
Lemma blank_line_ends_the_loop :
  turn_input turn_blank = Ret "   "
  /\ spec_exit_input "   " = false
  /\ interrupted (turn_input turn_blank) = false
  /\ loop_body ddgs_no_hit "mercury" turn_blank
     = ([EInput "Your question: "; EPrint "Goodbye!"], Ret Break).
Proof. repeat split. Qed.

Lemma agent_loop_termination_witness :
  exists tr farewell,
    is_farewell farewell
    /\ program openai_by_name (fun environ => environ) ddgs_no_hit
         environ_with_key ([turn_paris] ++ turn_quit :: [turn_paris])
       = (tr ++ [farewell], Returned)
    /\ exit_status
         (snd (program openai_by_name (fun environ => environ) ddgs_no_hit
                 environ_with_key ([turn_paris] ++ turn_quit :: [turn_paris])))
       = Some 0.
Proof.
  apply (agent_loop_termination openai_by_name (fun environ => environ)
           ddgs_no_hit environ_with_key "sk-test" "mercury" [turn_paris]
           turn_quit [turn_paris]).
  - reflexivity.
  - reflexivity.
  - repeat constructor.
  - reflexivity.
Defined.

(** C4, as stated, fails: when the call of the model client is interrupted
    from the keyboard, no error line is printed and the loop is left; the
    next question is never asked. *)
Lemma interrupted_question_is_fatal :
  turn_generate turn_interrupted = Raise (PyExn KeyboardInterrupt "")
  /\ program openai_by_name (fun environ => environ) ddgs_no_hit
       environ_with_key [turn_interrupted; turn_paris]
     = (main_prologue "sk-test"
          ++ [ EInput "Your question: "; ETime;
               EGenerateText "mercury" "What is the capital of France?"
                 [web_search ddgs_no_hit] 1000;
               EPrint (LF +:+ LF +:+ "Goodbye!") ],
        Returned).
Proof. split; reflexivity. Qed.

Lemma generate_error_is_reported_witness :
  loop_body ddgs_no_hit "mercury" turn_failing
  = (processing_trace ddgs_no_hit "mercury" "What is the capital of France?"
       ++ [EPrint (LF +:+ "Error: " +:+ "Connection error." +:+ LF)], Ret Next)
  /\ exists tr,
       fst (while_True ddgs_no_hit "mercury" [turn_failing; turn_paris])
       = fst (loop_body ddgs_no_hit "mercury" turn_failing)
           ++ processing_trace ddgs_no_hit "mercury"
                "What is the capital of France?"
           ++ answer_trace {| text := "Paris" |}
                (PrimFloat.sub 100.67%float 100.25%float)
           ++ tr.
Proof.
  destruct (generate_error_is_reported ddgs_no_hit "mercury" turn_failing
              "What is the capital of France?"
              (PyExn (ExceptionClass "APIConnectionError") "Connection error.")
              [turn_paris] eq_refl eq_refl eq_refl eq_refl)
    as (Hbody & _ & Hnext).
  split; [exact Hbody|].
  exact (Hnext turn_paris [] "What is the capital of France?"
           {| text := "Paris" |} eq_refl eq_refl eq_refl eq_refl).
Defined.


(** C6, as stated, fails: the declared schema has the two [description]
    members the schema of the specification lacks. *)
Lemma web_search_schema_not_bit_exact :
  tool_parameters (web_search ddgs_no_hit) = web_search_parameters
  /\ web_search_parameters <> spec_schema.
Proof. split; [reflexivity|]. intros H. discriminate H. Qed.


(** C8, as stated, fails: the interrupt during the answer is not reported
    as an error of the question, and the loop does not go on. *)
Lemma interrupt_is_not_a_question_error :
  loop_body ddgs_no_hit "mercury" turn_interrupted
  = (processing_trace ddgs_no_hit "mercury" "What is the capital of France?"
       ++ [EPrint (LF +:+ LF +:+ "Goodbye!")], Ret Break)
  /\ loop_body ddgs_no_hit "mercury" turn_interrupted
     <> (processing_trace ddgs_no_hit "mercury" "What is the capital of France?"
           ++ [EPrint (LF +:+ "Error: " +:+ "" +:+ LF)], Ret Next)
  /\ snd (while_True ddgs_no_hit "mercury" [turn_interrupted; turn_paris])
     = Returned.
Proof. split; [reflexivity|]. split; [|reflexivity]. intros H. discriminate H. Qed.

Lemma interrupt_while_processing_witness :
  while_True ddgs_no_hit "mercury" [turn_interrupted; turn_paris]
  = (processing_trace ddgs_no_hit "mercury" "What is the capital of France?"
       ++ [EPrint (LF +:+ LF +:+ "Goodbye!")], Returned).
Proof.
  exact (proj1 (proj2 (interrupt_while_processing openai_by_name
                         (fun environ => environ) ddgs_no_hit "mercury"
                         turn_interrupted "What is the capital of France?"
                         (PyExn KeyboardInterrupt "") [turn_paris]
                         eq_refl eq_refl eq_refl eq_refl))).
Defined.

(** The examples of C9: "   ", "  Quit  " and " EXIT" end the loop,
    "exit now" is a question. *)
Lemma exit_test_uses_trimmed_input_witness :
  loop_body ddgs_no_hit "mercury" (turn_of_line "   ")
  = ([EInput "Your question: "; EPrint "Goodbye!"], Ret Break)
  /\ loop_body ddgs_no_hit "mercury" (turn_of_line "  Quit  ")
     = ([EInput "Your question: "; EPrint "Goodbye!"], Ret Break)
  /\ loop_body ddgs_no_hit "mercury" (turn_of_line " EXIT")
     = ([EInput "Your question: "; EPrint "Goodbye!"], Ret Break)
  /\ exists tr,
       fst (loop_body ddgs_no_hit "mercury" (turn_of_line "exit now"))
       = [ EInput "Your question: "; ETime;
           EGenerateText "mercury" "exit now" [web_search ddgs_no_hit] 1000 ]
           ++ tr.
Proof.
  split; [|split; [|split]].
  - apply (exit_test_uses_trimmed_input ddgs_no_hit "mercury"
             (turn_of_line "   ") "   " eq_refl).
    left. reflexivity.
  - apply (exit_test_uses_trimmed_input ddgs_no_hit "mercury"
             (turn_of_line "  Quit  ") "  Quit  " eq_refl).
    right. right. reflexivity.
  - apply (exit_test_uses_trimmed_input ddgs_no_hit "mercury"
             (turn_of_line " EXIT") " EXIT" eq_refl).
    right. left. reflexivity.
  - apply (exit_test_uses_trimmed_input ddgs_no_hit "mercury"
             (turn_of_line "exit now") "exit now" eq_refl);
      [reflexivity | discriminate | discriminate].
Defined.

Lemma InceptionModel_is_never_used_witness :
  Forall (fun ev : event string => is_InceptionModel ev = false)
    (fst (program openai_by_name (fun environ => environ) ddgs_no_hit
            environ_with_key [turn_paris; turn_failing; turn_quit])).
Proof.
  exact (proj1 (InceptionModel_is_never_used openai_by_name
                  (fun environ => environ) ddgs_no_hit environ_with_key
                  [turn_paris; turn_failing; turn_quit])).
Defined.

(* ===================================================================== *)
(** * Further properties of [main.py] *)
(* ===================================================================== *)

(** ** Vocabulary *)

(** The first character of a string. *)
Definition first_char (s : string) : option ascii :=
  match s with
  | EmptyString => None
  | String c _ => Some c
  end.

Definition first_is_space (s : string) : bool :=
  match s with
  | EmptyString => false
  | String c _ => isspace c
  end.

Fixpoint last_is_space (s : string) : bool :=
  match s with
  | EmptyString => false
  | String c EmptyString => isspace c
  | String _ s' => last_is_space s'
  end.

(** No white space at either end. *)
Definition trimmed (s : string) : bool :=
  negb (first_is_space s) && negb (last_is_space s).

(** A turn with another line typed. *)
Definition with_line (t : turn) (line : string) : turn :=
  Turn (Ret line) (turn_start t) (turn_generate t) (turn_end t).

(** The number of events of a kind in a trace. *)
Definition count_events {Model : Type} (kind : event Model -> bool)
    (trace : list (event Model)) : nat :=
  length (List.filter kind trace).

Definition is_input {Model : Type} (ev : event Model) : bool :=
  match ev with
  | EInput _ => true
  | _ => false
  end.

(** What holds of a call of the model client: a prompt that is not empty,
    not an exit word and trimmed, the one tool, the fixed token budget. *)
Definition well_formed_call {Model : Type}
    (ddgs_text : string -> Z -> py_result (list (gmap string string)))
    (ev : event Model) : Prop :=
  match ev with
  | EGenerateText _ prompt tools max_tokens =>
      prompt <> "" /\ trimmed prompt = true /\ is_exit prompt = false
      /\ tools = [web_search ddgs_text] /\ max_tokens = 1000
  | _ => True
  end.

(** The events of a pass in which [input] raised [e], an [Exception]. *)
Definition input_error_trace {Model : Type} (e : py_exn)
  : list (event Model) :=
  [ EInput "Your question: ";
    EPrint (LF +:+ "Error: " +:+ exn_str e +:+ LF) ].

(** The outcome of [input] is an error derived from [Exception]. *)
Definition input_fails (t : turn) : bool :=
  match turn_input t with
  | Raise e => isinstance_Exception e
  | Ret _ => false
  end.

Definition input_error (t : turn) : py_exn :=
  match turn_input t with
  | Raise e => e
  | Ret _ => PyExn (ExceptionClass "Exception") ""
  end.

(** The text [main] writes before its first prompt. *)
Definition banner : string :=
  "Welcome! Ask me questions (type 'exit' or 'quit' to stop)." +:+ LF +:+ LF
  +:+ "I can search the web for current information to answer your questions."
  +:+ LF +:+ LF.

(** A search engine that fails with an ordinary error of unknown cause. *)
Definition ddgs_timeout
  : string -> Z -> py_result (list (gmap string string)) :=
  fun _ _ => Raise (PyExn (ExceptionClass "TimeoutException") "timed out").

(** A turn at the end of standard input, and one in which the model client
    calls [sys.exit]. *)
Definition turn_eof : turn :=
  Turn (Raise (PyExn (ExceptionClass "EOFError") "EOF when reading a line"))
       100.25%float (Ret {| text := "Paris" |}) 100.67%float.

Definition turn_sys_exit : turn :=
  Turn (Ret "What is the capital of France?") 100.25%float
       (Raise (PyExn (SystemExit (ExitInt 1)) "1")) 100.67%float.

(** ** The search adapter *)

(** X1.  [web_search_execute] raises exactly when the search engine raised an
    exception that does not derive from [Exception], and then raises that
    very exception: it never raises an [Exception] of its own or of the
    engine. *)
Theorem web_search_execute_raises_iff
    (ddgs_text : string -> Z -> py_result (list (gmap string string)))
    (query : string) (max_results : Z) (e : py_exn) :
  web_search_execute ddgs_text query max_results = Raise e
  <-> ddgs_text query max_results = Raise e
      /\ isinstance_Exception e = false.
Proof.
  unfold web_search_execute.
  destruct (ddgs_text query max_results) as [results|e'] eqn:Hcall; simpl.
  - destruct results; split; try discriminate; intros [H _]; discriminate H.
  - destruct (isinstance_Exception e') eqn:He'; split.
    + discriminate.
    + intros [[= ->] He]. congruence.
    + intros [= ->]. auto.
    + now intros [[= ->] _].
Qed.

Lemma concat_cons_first (sep x : string) (l : list string) (c : ascii)
    (x' : string) :
  x = String c x' -> first_char (String.concat sep (x :: l)) = Some c.
Proof. intros ->. destruct l; reflexivity. Qed.

(** X2.  The string returned tells the three outcomes of a search apart by
    its first character: "N" when there was no result, "1" when there was at
    least one, "E" when the search failed; it is never empty. *)
Theorem web_search_execute_first_char
    (ddgs_text : string -> Z -> py_result (list (gmap string string)))
    (query : string) (max_results : Z) (report : string) :
  web_search_execute ddgs_text query max_results = Ret report ->
  (ddgs_text query max_results = Ret [] /\ first_char report = Some "N"%char)
  \/ (exists result rest,
        ddgs_text query max_results = Ret (result :: rest)
        /\ first_char report = Some "1"%char)
  \/ (exists e,
        ddgs_text query max_results = Raise e
        /\ first_char report = Some "E"%char).
Proof.
  unfold web_search_execute.
  destruct (ddgs_text query max_results) as [[|result rest]|e]; simpl.
  - intros [= <-]. left. auto.
  - intros [= <-]. right. left. exists result, rest. split; [reflexivity|].
    rewrite format_loop_spec. cbn [app imap]. unfold join.
    eapply concat_cons_first. reflexivity.
  - destruct (isinstance_Exception e); [|discriminate].
    intros [= <-]. right. right. eauto.
Qed.

Lemma web_search_execute_first_char_witness :
  (ddgs_timeout "capital of France" 5 = Ret []
   /\ first_char ("Error performing web search: " +:+ "timed out")
      = Some "N"%char)
  \/ (exists result rest,
        ddgs_timeout "capital of France" 5 = Ret (result :: rest)
        /\ first_char ("Error performing web search: " +:+ "timed out")
           = Some "1"%char)
  \/ (exists e,
        ddgs_timeout "capital of France" 5 = Raise e
        /\ first_char ("Error performing web search: " +:+ "timed out")
           = Some "E"%char).
Proof.
  exact (web_search_execute_first_char ddgs_timeout "capital of France" 5
           ("Error performing web search: " +:+ "timed out") eq_refl).
Defined.

(** ** Trimming *)

Lemma lstrip_first (s : string) : first_is_space (lstrip s) = false.
Proof.
  induction s as [|c s IH]; simpl; [reflexivity|].
  destruct (isspace c) eqn:Hc; [exact IH | exact Hc].
Qed.

Lemma rstrip_last (s : string) : last_is_space (rstrip s) = false.
Proof.
  induction s as [|c s IH]; simpl; [reflexivity|].
  destruct (rstrip s) as [|d r].
  - destruct (isspace c) eqn:Hc; [reflexivity | exact Hc].
  - exact IH.
Qed.

Lemma rstrip_first (s : string) :
  first_is_space s = false -> first_is_space (rstrip s) = false.
Proof.
  destruct s as [|c s]; simpl; [reflexivity|]. intros Hc.
  destruct (rstrip s); [rewrite Hc|]; exact Hc.
Qed.

Lemma strip_trimmed (s : string) : trimmed (strip s) = true.
Proof.
  unfold trimmed, strip.
  now rewrite rstrip_last, rstrip_first by apply lstrip_first.
Qed.

Lemma all_space_app (a b : string) :
  all_space (a +:+ b) = all_space a && all_space b.
Proof.
  induction a as [|c a IH]; [reflexivity|].
  rewrite append_cons. simpl. now rewrite IH, andb_assoc.
Qed.

Lemma rstrip_all_space (s : string) : all_space s = true -> rstrip s = "".
Proof.
  induction s as [|c s IH]; simpl; [reflexivity|].
  intros [Hc Hs]%andb_true_iff. now rewrite (IH Hs), Hc.
Qed.

Lemma lstrip_app_space (ws s : string) :
  all_space ws = true -> lstrip (ws +:+ s) = lstrip s.
Proof.
  induction ws as [|c ws IH]; [reflexivity|]. rewrite append_cons. simpl.
  intros [Hc Hws]%andb_true_iff. rewrite Hc. exact (IH Hws).
Qed.

Lemma rstrip_app_space (s ws : string) :
  all_space ws = true -> rstrip (s +:+ ws) = rstrip s.
Proof.
  intros Hws. induction s as [|c s IH].
  - now apply rstrip_all_space.
  - rewrite append_cons. simpl. now rewrite IH.
Qed.

Lemma lstrip_app (s ws : string) :
  all_space s = false -> lstrip (s +:+ ws) = lstrip s +:+ ws.
Proof.
  induction s as [|c s IH]; [discriminate|]. rewrite append_cons. simpl.
  destruct (isspace c); simpl; [exact IH | reflexivity].
Qed.

(** White space around a line does not change what is left of it. *)
Lemma strip_padded (ws1 line ws2 : string) :
  all_space ws1 = true -> all_space ws2 = true ->
  strip (ws1 +:+ line +:+ ws2) = strip line.
Proof.
  intros H1 H2. unfold strip. rewrite lstrip_app_space by exact H1.
  destruct (all_space line) eqn:Hline.
  - rewrite (lstrip_all_space line Hline), lstrip_all_space; [reflexivity|].
    now rewrite all_space_app, Hline, H2.
  - now rewrite lstrip_app, rstrip_app_space.
Qed.

(** ** Traces *)

Lemma concat_empty_cons (x : string) (l : list string) :
  String.concat "" (x :: l) = x +:+ String.concat "" l.
Proof.
  destruct l; [|reflexivity]. simpl.
  induction x as [|c x IH]; [reflexivity|]. rewrite append_cons. now f_equal.
Qed.

Lemma count_events_app {Model : Type} (kind : event Model -> bool)
    (a b : list (event Model)) :
  count_events kind (a ++ b)
  = (count_events kind a + count_events kind b)%nat.
Proof.
  unfold count_events. now rewrite List.filter_app, List.length_app.
Qed.

Section FurtherLoopFacts.

Context {Model : Type}.
Variable openai : gmap string string -> string -> py_result Model.
Variable load_dotenv : gmap string string -> gmap string string.
Variable ddgs_text : string -> Z -> py_result (list (gmap string string)).

(** X3.  White space typed before or after a line changes nothing: the pass
    over the padded line has the same events and the same outcome as the
    pass over the line itself. *)
Theorem loop_body_ignores_padding (model : Model) (t : turn)
    (ws1 line ws2 : string) :
  all_space ws1 = true ->
  all_space ws2 = true ->
  loop_body ddgs_text model (with_line t (ws1 +:+ line +:+ ws2))
  = loop_body ddgs_text model (with_line t line).
Proof.
  intros H1 H2. rewrite !loop_body_eq. unfold with_line.
  cbn [turn_input turn_generate turn_start turn_end].
  now rewrite strip_padded.
Qed.

Lemma loop_body_input_fails (model : Model) (t : turn) :
  input_fails t = true ->
  loop_body ddgs_text model t = (input_error_trace (input_error t), Ret Next).
Proof.
  unfold input_fails, input_error. rewrite loop_body_eq.
  destruct (turn_input t) as [line|e]; [discriminate|]. intros He.
  unfold handled. now rewrite (Exception_not_KeyboardInterrupt e He), He.
Qed.

(** X4.  When every read of a line fails with an exception derived from
    [Exception], as [input] does at the end of standard input, the loop
    never ends: each pass prints an error line and prompts again. *)
Theorem input_errors_never_end_the_loop (model : Model) (script : list turn) :
  Forall (fun t => input_fails t = true) script ->
  while_True ddgs_text model script
  = (concat (map (fun t => input_error_trace (input_error t)) script)
       ++ [EInput "Your question: "], AwaitingInput).
Proof.
  induction 1 as [|t script Ht _ IH]; [reflexivity|].
  rewrite while_True_Next by now rewrite loop_body_input_fails.
  rewrite IH, loop_body_input_fails by exact Ht.
  cbn [fst snd map concat]. now rewrite <- app_assoc.
Qed.

Lemma loop_body_Raise_iff (model : Model) (t : turn) (e : py_exn) :
  snd (loop_body ddgs_text model t) = Raise e <->
  isinstance_Exception e = false
  /\ isinstance_KeyboardInterrupt e = false
  /\ (turn_input t = Raise e
      \/ exists line,
           turn_input t = Ret line /\ is_exit (strip line) = false
           /\ turn_generate t = Raise e).
Proof.
  rewrite loop_body_eq. unfold handled.
  destruct (turn_input t) as [line|e1].
  - destruct (is_exit (strip line)) eqn:Hexit.
    { split; [discriminate|].
      intros (_ & _ & [H|(l & [= <-] & H & _)]); congruence. }
    destruct (turn_generate t) as [result|e2].
    { split; [discriminate|].
      intros (_ & _ & [H|(l & _ & _ & H)]); discriminate. }
    destruct (isinstance_KeyboardInterrupt e2) eqn:Hk;
      [|destruct (isinstance_Exception e2) eqn:Hx]; cbn [snd]; split;
      try discriminate;
      try (intros (Hx' & Hk' & [H|(l & _ & _ & [= ->])]); congruence).
    intros [= <-]. repeat split; try assumption. right. eauto.
  - destruct (isinstance_KeyboardInterrupt e1) eqn:Hk;
      [|destruct (isinstance_Exception e1) eqn:Hx]; cbn [snd]; split;
      try discriminate;
      try (intros (Hx' & Hk' & [[= ->]|(l & H & _)]); congruence).
    intros [= <-]. auto.
Qed.

(** X5.  An exception raised by [input] or by [generate_text] leaves the
    pass exactly when it is neither a [KeyboardInterrupt] nor derived from
    [Exception]; it then leaves the loop and the program as it was raised,
    and no further line is read. *)
Theorem base_exceptions_leave_the_loop (model : Model) (t : turn)
    (e : py_exn) (rest : list turn) :
  (snd (loop_body ddgs_text model t) = Raise e <->
     isinstance_Exception e = false
     /\ isinstance_KeyboardInterrupt e = false
     /\ (turn_input t = Raise e
         \/ exists line,
              turn_input t = Ret line /\ is_exit (strip line) = false
              /\ turn_generate t = Raise e))
  /\ (snd (loop_body ddgs_text model t) = Raise e ->
      while_True ddgs_text model (t :: rest)
      = (fst (loop_body ddgs_text model t), Uncaught e)
      /\ forall environ api_key pre,
           os_getenv (load_dotenv environ) "INCEPTION_API_KEY" = Some api_key ->
           main_model openai load_dotenv environ api_key = Ret model ->
           Forall (fun u => snd (loop_body ddgs_text model u) = Ret Next) pre ->
           snd (program openai load_dotenv ddgs_text environ
                  (pre ++ t :: rest)) = Uncaught e).
Proof.
  split; [apply loop_body_Raise_iff|]. intros Hraise. split.
  - now apply while_True_Raise.
  - intros environ api_key pre Hkey Hmodel Hpre.
    rewrite (program_with_key openai load_dotenv ddgs_text environ api_key
               model) by assumption.
    rewrite while_True_app by exact Hpre. cbn [snd].
    now rewrite (while_True_Raise _ _ _ _ e) by exact Hraise.
Qed.

Lemma loop_body_calls (model : Model) (t : turn) :
  Forall (well_formed_call ddgs_text) (fst (loop_body ddgs_text model t)).
Proof.
  rewrite loop_body_eq. unfold handled, answer_trace, processing_trace.
  destruct (turn_input t) as [line|e].
  - destruct (is_exit (strip line)) eqn:Hexit; cbn [fst];
      [repeat constructor|].
    assert (well_formed_call ddgs_text
              (EGenerateText model (strip line) [web_search ddgs_text] 1000))
      as Hcall.
    { cbn [well_formed_call]. split; [|split; [apply strip_trimmed|auto]].
      now apply is_exit_false_iff in Hexit as (H & _). }
    destruct (turn_generate t) as [result|e]; cbn [fst app].
    + repeat (constructor; [first [exact Hcall | exact I]|]). constructor.
    + destruct (isinstance_KeyboardInterrupt e);
        [|destruct (isinstance_Exception e)]; cbn [fst app];
        repeat (constructor; [first [exact Hcall | exact I]|]); constructor.
  - destruct (isinstance_KeyboardInterrupt e);
      [|destruct (isinstance_Exception e)]; cbn [fst app];
      repeat constructor.
Qed.

Lemma while_True_calls (model : Model) (script : list turn) :
  Forall (well_formed_call ddgs_text) (fst (while_True ddgs_text model script)).
Proof.
  induction script as [|t rest IH]; [repeat constructor|].
  pose proof (loop_body_calls model t) as Ht.
  destruct (snd (loop_body ddgs_text model t)) as [[|]|e] eqn:Hend.
  - rewrite while_True_Next by exact Hend. now apply Forall_app_2.
  - now rewrite while_True_Break by exact Hend.
  - now rewrite (while_True_Raise _ _ _ _ e) by exact Hend.
Qed.

(** X7.  In every run, each call of the model client has a prompt that is
    not empty, carries no white space at either end and is not an exit word,
    and it is given the one tool [web_search] and [max_tokens = 1000]. *)
Theorem every_call_is_well_formed (environ : gmap string string)
    (script : list turn) :
  Forall (well_formed_call ddgs_text)
    (fst (program openai load_dotenv ddgs_text environ script)).
Proof.
  destruct (program_cases openai load_dotenv ddgs_text environ script)
    as [->|[(api_key & e & ->)|(api_key & model & _ & ->)]]; cbn [fst].
  - constructor.
  - repeat constructor.
  - apply Forall_app_2; [repeat constructor|]. apply while_True_calls.
Qed.

Lemma loop_body_counts (model : Model) (t : turn) :
  count_events is_input (fst (loop_body ddgs_text model t)) = 1%nat
  /\ (count_events is_generate_text (fst (loop_body ddgs_text model t)) <= 1)%nat.
Proof.
  rewrite loop_body_eq. unfold handled, answer_trace, processing_trace.
  destruct (turn_input t) as [line|e].
  - destruct (is_exit (strip line)); [split; [reflexivity | cbn; lia]|].
    destruct (turn_generate t) as [result|e];
      [split; [reflexivity | cbn; lia]|].
    destruct (isinstance_KeyboardInterrupt e);
      [|destruct (isinstance_Exception e)]; split;
      first [reflexivity | cbn; lia].
  - destruct (isinstance_KeyboardInterrupt e);
      [|destruct (isinstance_Exception e)]; split;
      first [reflexivity | cbn; lia].
Qed.

Lemma while_True_counts (model : Model) (script : list turn) :
  (count_events is_generate_text (fst (while_True ddgs_text model script))
   <= count_events is_input (fst (while_True ddgs_text model script)))%nat
  /\ (count_events is_input (fst (while_True ddgs_text model script))
      <= S (length script))%nat.
Proof.
  induction script as [|t rest IH]; [split; cbn; lia|].
  destruct (loop_body_counts model t) as [Hin Hgen].
  destruct (snd (loop_body ddgs_text model t)) as [[|]|e] eqn:Hend.
  - rewrite while_True_Next by exact Hend. cbn [fst length].
    rewrite !count_events_app. lia.
  - rewrite while_True_Break by exact Hend. cbn [fst length]. lia.
  - rewrite (while_True_Raise _ _ _ _ e) by exact Hend. cbn [fst length]. lia.
Qed.

(** X8.  In every run the model client is called at most once per prompt
    shown, and the prompt is shown at most once per line of input, plus once
    when the loop is left waiting. *)
Theorem one_call_per_prompt (environ : gmap string string)
    (script : list turn) :
  (count_events is_generate_text
     (fst (program openai load_dotenv ddgs_text environ script))
   <= count_events is_input
        (fst (program openai load_dotenv ddgs_text environ script)))%nat
  /\ (count_events is_input
        (fst (program openai load_dotenv ddgs_text environ script))
      <= S (length script))%nat.
Proof.
  destruct (program_cases openai load_dotenv ddgs_text environ script)
    as [->|[(api_key & e & ->)|(api_key & model & _ & ->)]]; cbn [fst].
  - cbn. lia.
  - cbn. lia.
  - rewrite !count_events_app.
    change (count_events is_generate_text (main_prologue api_key)) with 0%nat.
    change (count_events is_input (main_prologue (Model := Model) api_key))
      with 0%nat.
    apply while_True_counts.
Qed.


(** X11.  With the credential present and the model handle obtained,
    standard output starts with the two lines of welcome, each followed by
    an empty line, and then the first prompt. *)
Theorem stdout_starts_with_banner (environ : gmap string string)
    (api_key : string) (model : Model) (script : list turn) :
  os_getenv (load_dotenv environ) "INCEPTION_API_KEY" = Some api_key ->
  main_model openai load_dotenv environ api_key = Ret model ->
  exists rest,
    stdout (fst (program openai load_dotenv ddgs_text environ script))
    = banner +:+ "Your question: " +:+ rest.
Proof.
  intros Hkey Hmodel.
  rewrite (program_with_key openai load_dotenv ddgs_text environ api_key model)
    by assumption.
  cbn [fst].
  destruct (while_True_prompts ddgs_text model script) as [tr ->].
  exists (stdout tr). unfold stdout, main_prologue.
  cbn [app map stdout_of]. rewrite !concat_empty_cons. reflexivity.
Qed.

End FurtherLoopFacts.

(** X12.  The seconds printed for a finite elapsed time are a whole number
    of hundredths, the one nearest to the elapsed time: equal to it when the
    time is an integer, within half a hundredth of it otherwise. *)
Theorem format_2f_rounds (x : float) (s : bool) (m : positive) (e : Z) :
  Prim2SF x = S754_finite s m e ->
  exists h : Z,
    format_2f x
    = (if s then "-" else "") +:+ pretty (Z.to_N (h / 100)) +:+ "."
        +:+ digit (h mod 100 / 10) +:+ digit (h mod 10)
    /\ 0 <= h
    /\ (0 <= e -> h = 100 * Z.pos m * 2 ^ e)
    /\ (e < 0 -> 2 * Z.abs (100 * Z.pos m - h * 2 ^ (- e)) <= 2 ^ (- e)).
Proof.
  intros Hx. exists (hundredths m e).
  destruct (format_2f_finite x s m e Hx) as [Hfmt Hpos].
  destruct (hundredths_nearest m e) as [Hexact Hnear].
  repeat split; assumption.
Qed.

(** ** The further statements on the sample inputs *)

Lemma loop_body_ignores_padding_witness :
  loop_body ddgs_no_hit "mercury"
    (with_line turn_paris ("  " +:+ "What is the capital of France?" +:+ " "))
  = loop_body ddgs_no_hit "mercury"
      (with_line turn_paris "What is the capital of France?").
Proof.
  exact (loop_body_ignores_padding ddgs_no_hit "mercury" turn_paris "  "
           "What is the capital of France?" " " eq_refl eq_refl).
Defined.

Lemma input_errors_never_end_the_loop_witness :
  while_True ddgs_no_hit "mercury" [turn_eof; turn_eof]
  = (concat (map (fun t => input_error_trace (input_error t))
               [turn_eof; turn_eof])
       ++ [EInput "Your question: "], AwaitingInput).
Proof.
  apply (input_errors_never_end_the_loop ddgs_no_hit "mercury"
           [turn_eof; turn_eof]).
  repeat constructor.
Defined.

Lemma base_exceptions_leave_the_loop_witness :
  snd (program openai_by_name (fun environ => environ) ddgs_no_hit
         environ_with_key ([turn_paris] ++ turn_sys_exit :: [turn_paris]))
  = Uncaught (PyExn (SystemExit (ExitInt 1)) "1").
Proof.
  apply (proj2 (proj2 (base_exceptions_leave_the_loop openai_by_name
                         (fun environ => environ) ddgs_no_hit "mercury"
                         turn_sys_exit (PyExn (SystemExit (ExitInt 1)) "1")
                         [turn_paris]) eq_refl)
           environ_with_key "sk-test" [turn_paris]).
  - reflexivity.
  - reflexivity.
  - repeat constructor.
Defined.

Lemma stdout_starts_with_banner_witness :
  exists rest,
    stdout (fst (program openai_by_name (fun environ => environ) ddgs_no_hit
                   environ_with_key [turn_quit]))
    = banner +:+ "Your question: " +:+ rest.
Proof.
  exact (stdout_starts_with_banner openai_by_name (fun environ => environ)
           ddgs_no_hit environ_with_key "sk-test" "mercury" [turn_quit]
           eq_refl eq_refl).
Defined.

Lemma format_2f_rounds_witness :
  exists h : Z,
    format_2f 0.375%float
    = (if false then "-" else "") +:+ pretty (Z.to_N (h / 100)) +:+ "."
        +:+ digit (h mod 100 / 10) +:+ digit (h mod 10)
    /\ 0 <= h
    /\ (0 <= -54 -> h = 100 * Z.pos 6755399441055744 * 2 ^ (-54))
    /\ (-54 < 0 ->
        2 * Z.abs (100 * Z.pos 6755399441055744 - h * 2 ^ (- (-54)))
        <= 2 ^ (- (-54))).
Proof.
  exact (format_2f_rounds 0.375%float false 6755399441055744 (-54) eq_refl).
Defined.
